(** * Billing core of the community management application

    A shallow embedding of the billing handlers of
    [community_managment_git/app.py]: [record_payment], [add_meter_reading],
    [generate_bills], [generate_water_bill_preview] and
    [generate_water_bills_final], together with the part of the SQLite schema
    of [init_db] they touch.

    Conventions of the embedding.
    - A table is the list of its rows in rowid order; [INSERT] appends.
    - Amounts are the [REAL] columns and Python floats of the source.  They
      are embedded as exact rationals ([Q]), which stand for finite doubles;
      equalities that need arithmetic are stated with [==], the others hold
      on the nose.  Rounding is not part of this embedding: where it
      decides, on sequences of payments, the [UPDATE] of [record_payment]
      is taken over IEEE 754 doubles ([Double]).
    - [TEXT] values are [string]s, compared as SQLite's BINARY collation
      does (byte-wise, [String.compare]).
    - The [DATE] columns filled from a form hold what SQLite stores there,
      a number or a text ([Date]), in SQLite's order.
    - Row and form identifiers are integers ([Z]).
    - A handler only models its [POST] branch.  Form fields that the source
      parses with [float(...)] are given already parsed. *)

From Stdlib Require Import List String Ascii ZArith QArith Bool Lia Lqa.
From Stdlib Require Import Permutation Sorted OrderedTypeEx PrimFloat.
Import ListNotations.

Local Open Scope string_scope.
Local Open Scope Z_scope.
Local Open Scope Q_scope.

(** ** Values of a [DATE] column *)

Module Date.
(** [reading_date] and [payment_date] are declared [DATE], which gives the
    column NUMERIC affinity: a text that reads as a number is stored as that
    number, INTEGER or REAL (['20240215'] as the integer 20240215), and any
    other text, such as the ['2024-02-15'] that a date field sends, is
    stored as it is.  The forms carry these two fields as the column stores
    them. *)
Inductive value :=
| number (n : Q)
| text (s : string).

(** How SQLite compares two such values, in [ORDER BY]: a number comes
    before any text, two numbers compare by value and two texts byte-wise. *)
Definition compare (a b : value) : comparison :=
  match a, b with
  | number x, number y => (x ?= y)%Q
  | number _, text _ => Lt
  | text _, number _ => Gt
  | text s, text t => String.compare s t
  end.

Definition ltb (a b : value) : bool :=
  match compare a b with
  | Lt => true
  | _ => false
  end.

Definition leb (a b : value) : bool :=
  match compare a b with
  | Gt => false
  | _ => true
  end.
End Date.

(** ** Schema ([init_db]) *)

Module House.
Record row := mk {
  id : Z;
  house_number : string;
  owner_name : string;
  contact_number : string;
  email : string;
  address : string;
  status : string
}.
End House.

Module MeterReading.
(** [previous_reading] and [consumption] are nullable [REAL] columns. *)
Record row := mk {
  id : Z;
  house_id : Z;
  reading_date : Date.value;
  current_reading : Q;
  previous_reading : option Q;
  consumption : option Q;
  submitted_by : Z
}.
End MeterReading.

Module Bill.
(** [generation_date] and [due_date] hold Python [date] values; a date is
    embedded as its day ordinal, so that [timedelta(days=n)] adds [n].
    Every statement that writes a bill gives its [REAL] columns a number or
    leaves them to their [DEFAULT 0], so they are not optional here. *)
Record row := mk {
  id : Z;
  house_id : Z;
  bill_type : string;
  billing_cycle : string;
  generation_date : Z;
  due_date : Z;
  fixed_maintenance : Q;
  individual_water_consumption : Q;
  individual_water_charge : Q;
  water_maintenance_25_percent : Q;
  waste_water_charge : Q;
  repair_charge : Q;
  previous_balance : Q;
  total_amount_due : Q;
  total_amount_paid : Q;
  current_balance : Q;
  status : string
}.
End Bill.

Module Payment.
Record row := mk {
  id : Z;
  bill_id : Z;
  house_id : Z;
  payment_date : Date.value;
  amount_paid : Q;
  payment_method : string;
  transaction_id : string;
  recorded_by : Z;
  notes : string
}.
End Payment.

Record Database := mkDatabase {
  houses : list House.row;
  meter_readings : list MeterReading.row;
  bills : list Bill.row;
  payments : list Payment.row
}.

(** ** The fragment of SQL the handlers use *)

Module Sql.

(** [id INTEGER PRIMARY KEY AUTOINCREMENT]: one more than the largest
    rowid of the table (no handler deletes rows). *)
Definition autoincrement (ids : list Z) : Z :=
  (1 + fold_right Z.max 0 ids)%Z.

Section Select.
Context {row : Type}.

(** [SELECT COUNT( * ) FROM t WHERE p]. *)
Definition count_where (p : row -> bool) (t : list row) : Z :=
  Z.of_nat (List.length (filter p t)).

(** [ORDER BY key DESC LIMIT 1] followed by [fetchone()].  SQLite leaves
    the choice among rows with equal keys open; here the row met first
    in rowid order is returned. *)
Fixpoint order_by_desc_limit_1 (key : row -> string) (t : list row)
  : option row :=
  match t with
  | [] => None
  | r :: rest =>
      match order_by_desc_limit_1 key rest with
      | None => Some r
      | Some r' => if String.ltb (key r) (key r') then Some r' else Some r
      end
  end.

(** The same on a [DATE] column. *)
Fixpoint order_by_date_desc_limit_1 (key : row -> Date.value) (t : list row)
  : option row :=
  match t with
  | [] => None
  | r :: rest =>
      match order_by_date_desc_limit_1 key rest with
      | None => Some r
      | Some r' => if Date.ltb (key r) (key r') then Some r' else Some r
      end
  end.
End Select.

End Sql.

(** ** Connections ([get_db_connection], [execute], [commit], [close]) *)

(** A connection sees its own uncommitted writes in [pending]; the database
    file keeps [stored] until [commit]. *)
Record connection := mkConnection {
  stored : Database;
  pending : Database
}.

Definition get_db_connection (db : Database) : connection :=
  {| stored := db; pending := db |}.

Definition execute (stmt : Database -> Database) (conn : connection)
  : connection :=
  {| stored := stored conn; pending := stmt (pending conn) |}.

Definition commit (conn : connection) : connection :=
  {| stored := pending conn; pending := pending conn |}.

(** Closing drops what was not committed; the result is the database file. *)
Definition close (conn : connection) : Database := stored conn.

(** ** Responses *)

Inductive flash_category := success | error.

(** The texts passed to [flash], by the format string they come from. *)
Inductive flash_message :=
| bills_already_generated (bill_type : string)
| maintenance_bills_generated (n : nat)
| water_bills_generated (n : nat)
| payment_recorded
| meter_reading_added.

Definition flash := (flash_message * flash_category)%type.

(** One row of [house_data] in [generate_water_bill_preview]. *)
Module HouseInfo.
Record t := mk {
  house : House.row;
  consumption : Q;
  previous_balance : Q;
  water_charge : Q;
  water_maintenance : Q;
  waste_water : Q;
  repair_charge : Q;
  additional_amount : Q;
  total_due : Q
}.
End HouseInfo.

Inductive response :=
| render_generate_bills (flashed : list flash)
| render_water_bill_preview
    (house_data : list HouseInfo.t) (billing_cycle : string)
    (lnt_main_meter lnt_total_bill waste_water_charge repair_charge : Q)
    (total_consumption : Q)
| redirect (endpoint : string) (flashed : list flash).

Inductive exception := ZeroDivisionError.

Inductive outcome (A : Type) :=
| Returned (a : A)
| Raised (e : exception).
Arguments Returned {A} a.
Arguments Raised {A} e.

Definition bind {A B : Type} (m : outcome A) (k : A -> outcome B)
  : outcome B :=
  match m with
  | Returned a => k a
  | Raised e => Raised e
  end.

Notation "x <- m ;; k" := (bind m (fun x => k))
  (at level 61, m at next level, right associativity).

(** ** [record_payment] *)

Module PaymentForm.
(** [payment_date] is the field as the [DATE] column stores it. *)
Record t := mk {
  house_id : Z;
  bill_id : Z;
  amount_paid : Q;
  payment_date : Date.value;
  payment_method : string;
  transaction_id : string;
  notes : string
}.
End PaymentForm.

(** [INSERT INTO payments (...) VALUES (...)]. *)
Definition insert_payment (bill_id house_id : Z) (payment_date : Date.value)
    (amount_paid : Q) (payment_method transaction_id : string)
    (recorded_by : Z) (notes : string) (db : Database) : Database :=
  {| houses := houses db;
     meter_readings := meter_readings db;
     bills := bills db;
     payments := payments db ++
       [ {| Payment.id := Sql.autoincrement (map Payment.id (payments db));
            Payment.bill_id := bill_id;
            Payment.house_id := house_id;
            Payment.payment_date := payment_date;
            Payment.amount_paid := amount_paid;
            Payment.payment_method := payment_method;
            Payment.transaction_id := transaction_id;
            Payment.recorded_by := recorded_by;
            Payment.notes := notes |} ] |}.

(** The [CASE] expression of the [UPDATE bills] statement:
    [WHEN paid >= due THEN 'paid' WHEN paid > 0 THEN 'partially_paid'
     ELSE 'pending']. *)
Definition case_status (paid due : Q) : string :=
  if Qle_bool due paid then "paid"
  else if negb (Qle_bool paid 0) then "partially_paid"
  else "pending".

(** The [SET] clause of the [UPDATE bills] statement; every right-hand side
    reads the row as it was before the statement. *)
Definition set_payment (amount_paid : Q) (b : Bill.row) : Bill.row :=
  {| Bill.id := Bill.id b;
     Bill.house_id := Bill.house_id b;
     Bill.bill_type := Bill.bill_type b;
     Bill.billing_cycle := Bill.billing_cycle b;
     Bill.generation_date := Bill.generation_date b;
     Bill.due_date := Bill.due_date b;
     Bill.fixed_maintenance := Bill.fixed_maintenance b;
     Bill.individual_water_consumption := Bill.individual_water_consumption b;
     Bill.individual_water_charge := Bill.individual_water_charge b;
     Bill.water_maintenance_25_percent := Bill.water_maintenance_25_percent b;
     Bill.waste_water_charge := Bill.waste_water_charge b;
     Bill.repair_charge := Bill.repair_charge b;
     Bill.previous_balance := Bill.previous_balance b;
     Bill.total_amount_due := Bill.total_amount_due b;
     Bill.total_amount_paid := Bill.total_amount_paid b + amount_paid;
     Bill.current_balance :=
       Bill.total_amount_due b - (Bill.total_amount_paid b + amount_paid);
     Bill.status :=
       case_status (Bill.total_amount_paid b + amount_paid)
                   (Bill.total_amount_due b) |}.

(** [UPDATE bills SET ... WHERE id = ?]. *)
Definition update_bill_payment (amount_paid : Q) (bill_id : Z)
    (db : Database) : Database :=
  {| houses := houses db;
     meter_readings := meter_readings db;
     bills := map (fun b => if (Bill.id b =? bill_id)%Z
                            then set_payment amount_paid b else b)
                  (bills db);
     payments := payments db |}.

Definition record_payment (user_id : Z) (form : PaymentForm.t)
    (db : Database) : outcome response * Database :=
  let conn := get_db_connection db in
  let house_id := PaymentForm.house_id form in
  let bill_id := PaymentForm.bill_id form in
  let amount_paid := PaymentForm.amount_paid form in
  let payment_date := PaymentForm.payment_date form in
  let payment_method := PaymentForm.payment_method form in
  let transaction_id := PaymentForm.transaction_id form in
  let notes := PaymentForm.notes form in
  let conn :=
    execute (insert_payment bill_id house_id payment_date amount_paid
               payment_method transaction_id user_id notes) conn in
  let conn := execute (update_bill_payment amount_paid bill_id) conn in
  let conn := commit conn in
  (Returned (redirect "payments" [(payment_recorded, success)]), close conn).

(** [SELECT * FROM bills WHERE id = ?]. *)
Definition bill_by_id (bill_id : Z) (db : Database) : option Bill.row :=
  find (fun b => (Bill.id b =? bill_id)%Z) (bills db).

(** ** [record_payment] in double precision *)

Module Double.
(** A [REAL] column holds an IEEE 754 double, [float(...)] yields one, and
    the [+], [-], [>=] and [>] of the [UPDATE bills] statement are those of
    the doubles.  Where the rounding of these operations matters, the
    statement is taken on the bill row that [WHERE id = ?] selects, with the
    columns it reads and writes as doubles. *)
Local Open Scope float_scope.

Record bill := mk {
  total_amount_due : float;
  total_amount_paid : float;
  current_balance : float;
  status : string
}.

(** The [CASE] expression. *)
Definition case_status (paid due : float) : string :=
  if due <=? paid then "paid"
  else if 0 <? paid then "partially_paid"
  else "pending".

(** The [SET] clause. *)
Definition set_payment (amount_paid : float) (b : bill) : bill :=
  {| total_amount_due := total_amount_due b;
     total_amount_paid := total_amount_paid b + amount_paid;
     current_balance :=
       total_amount_due b - (total_amount_paid b + amount_paid);
     status :=
       case_status (total_amount_paid b + amount_paid)
                   (total_amount_due b) |}.

(** The two statements of [record_payment] on that row.  Python binds a NaN
    as NULL and SQLite gives NULL for an operation whose result is NaN, so
    that a NaN amount fails the [INSERT] on [amount_paid REAL NOT NULL] and
    a NaN balance fails the [UPDATE] on [current_balance REAL NOT NULL]:
    [None] is the [sqlite3.IntegrityError] that the handler lets through,
    nothing being committed. *)
Definition record_payment (amount_paid : float) (b : bill) : option bill :=
  if is_nan amount_paid then None
  else
    let b' := set_payment amount_paid b in
    if is_nan (current_balance b') then None else Some b'.

(** Payments recorded one after the other, as long as none fails. *)
Fixpoint record_payments (amounts : list float) (b : bill) : option bill :=
  match amounts with
  | [] => Some b
  | amount_paid :: rest =>
      match record_payment amount_paid b with
      | Some b' => record_payments rest b'
      | None => None
      end
  end.

(** What the amounts come to when they are added one by one, in this order,
    to what was paid before. *)
Definition running_total (paid : float) (amounts : list float) : float :=
  fold_left add amounts paid.

#[local] Set Warnings "-inexact-float".

(** A bill of 3000 as generation writes it, and three payments of
    1926.60, 200.18 and 873.22 in two orders.  A decimal stands for the
    double nearest to it, which is what [float('1926.60')] gives. *)
Definition bill_3000 : bill :=
  {| total_amount_due := 3000;
     total_amount_paid := 0;
     current_balance := 3000;
     status := "pending" |}.

Definition payments_in_order : list float := [1926.60; 200.18; 873.22].

Definition payments_reordered : list float := [1926.60; 873.22; 200.18].
End Double.

(** ** [add_meter_reading] *)

Module ReadingForm.
(** [reading_date] is the field as the [DATE] column stores it: ['2024-01-31']
    is [Date.text "2024-01-31"], ['20240215'] is [Date.number 20240215]. *)
Record t := mk {
  house_id : Z;
  reading_date : Date.value;
  current_reading : Q
}.
End ReadingForm.

(** [SELECT ... FROM meter_readings WHERE house_id = ?
     ORDER BY reading_date DESC LIMIT 1]. *)
Definition latest_reading (house_id : Z) (db : Database)
  : option MeterReading.row :=
  Sql.order_by_date_desc_limit_1 MeterReading.reading_date
    (filter (fun r => (MeterReading.house_id r =? house_id)%Z)
            (meter_readings db)).

(** [INSERT INTO meter_readings (...) VALUES (...)].  The difference of two
    finite values is a number, so that [consumption] is never bound as
    NULL. *)
Definition insert_meter_reading (house_id : Z) (reading_date : Date.value)
    (current_reading previous_reading consumption : Q) (submitted_by : Z)
    (db : Database) : Database :=
  {| houses := houses db;
     meter_readings := meter_readings db ++
       [ {| MeterReading.id :=
              Sql.autoincrement (map MeterReading.id (meter_readings db));
            MeterReading.house_id := house_id;
            MeterReading.reading_date := reading_date;
            MeterReading.current_reading := current_reading;
            MeterReading.previous_reading := Some previous_reading;
            MeterReading.consumption := Some consumption;
            MeterReading.submitted_by := submitted_by |} ];
     bills := bills db;
     payments := payments db |}.

Definition add_meter_reading (user_id : Z) (form : ReadingForm.t)
    (db : Database) : outcome response * Database :=
  let conn := get_db_connection db in
  let house_id := ReadingForm.house_id form in
  let reading_date := ReadingForm.reading_date form in
  let current_reading := ReadingForm.current_reading form in
  let previous_reading_row := latest_reading house_id (pending conn) in
  let previous_reading :=
    match previous_reading_row with
    | Some r => MeterReading.current_reading r
    | None => 0
    end in
  let consumption := current_reading - previous_reading in
  let conn :=
    execute (insert_meter_reading house_id reading_date current_reading
               previous_reading consumption user_id) conn in
  let conn := commit conn in
  (Returned (redirect "meter_readings" [(meter_reading_added, success)]),
   close conn).

(** ** [generate_bills] *)

(** The per-house fields of the water-bill form, [f'water_charge_{house_id}']
    and the like. *)
Inductive water_field :=
| water_charge_
| water_maintenance_
| waste_water_
| repair_charge_
| consumption_
| previous_balance_.

Module GenerateForm.
(** [preview_bills] is ['preview_bills' in request.form]; an absent
    optional field is [None]. *)
Record t := mk {
  billing_cycle : string;
  bill_type : string;
  preview_bills : bool;
  lnt_main_meter : Q;
  lnt_total_bill : Q;
  waste_water_charge : option Q;
  repair_charge : option Q;
  per_house : water_field -> Z -> option Q
}.
End GenerateForm.

(** [form_data.get(key, 0)]. *)
Definition get_or_0 (v : option Q) : Q :=
  match v with
  | Some x => x
  | None => 0
  end.

(** [SELECT * FROM houses WHERE status = "occupied"]. *)
Definition occupied_houses (db : Database) : list House.row :=
  filter (fun h => String.eqb (House.status h) "occupied") (houses db).

(** [SELECT COUNT( * ) FROM bills WHERE billing_cycle = ? AND bill_type = ?]. *)
Definition existing_bills (billing_cycle bill_type : string) (db : Database)
  : Z :=
  Sql.count_where
    (fun b => String.eqb (Bill.billing_cycle b) billing_cycle
              && String.eqb (Bill.bill_type b) bill_type)
    (bills db).

(** [SELECT current_balance FROM bills WHERE house_id = ? AND bill_type = ...
     ORDER BY billing_cycle DESC LIMIT 1]. *)
Definition previous_bill (house_id : Z) (bill_type : string) (db : Database)
  : option Bill.row :=
  Sql.order_by_desc_limit_1 Bill.billing_cycle
    (filter (fun b => (Bill.house_id b =? house_id)%Z
                      && String.eqb (Bill.bill_type b) bill_type)
            (bills db)).

(** [previous_bill['current_balance'] if previous_bill else 0]. *)
Definition previous_balance_of (house_id : Z) (bill_type : string)
    (db : Database) : Q :=
  match previous_bill house_id bill_type db with
  | Some b => Bill.current_balance b
  | None => 0
  end.

(** The maintenance [INSERT INTO bills]; the columns it does not list take
    their [DEFAULT]. *)
Definition insert_maintenance_bill (house_id : Z)
    (bill_type billing_cycle : string) (generation_date due_date : Z)
    (fixed_maintenance previous_balance total_amount_due current_balance : Q)
    (db : Database) : Database :=
  {| houses := houses db;
     meter_readings := meter_readings db;
     bills := bills db ++
       [ {| Bill.id := Sql.autoincrement (map Bill.id (bills db));
            Bill.house_id := house_id;
            Bill.bill_type := bill_type;
            Bill.billing_cycle := billing_cycle;
            Bill.generation_date := generation_date;
            Bill.due_date := due_date;
            Bill.fixed_maintenance := fixed_maintenance;
            Bill.individual_water_consumption := 0;
            Bill.individual_water_charge := 0;
            Bill.water_maintenance_25_percent := 0;
            Bill.waste_water_charge := 0;
            Bill.repair_charge := 0;
            Bill.previous_balance := previous_balance;
            Bill.total_amount_due := total_amount_due;
            Bill.total_amount_paid := 0;
            Bill.current_balance := current_balance;
            Bill.status := "pending" |} ];
     payments := payments db |}.

(** The water [INSERT INTO bills]. *)
Definition insert_water_bill (house_id : Z)
    (bill_type billing_cycle : string) (generation_date due_date : Z)
    (individual_water_consumption individual_water_charge
     water_maintenance_25_percent waste_water_charge repair_charge
     previous_balance total_amount_due current_balance : Q)
    (db : Database) : Database :=
  {| houses := houses db;
     meter_readings := meter_readings db;
     bills := bills db ++
       [ {| Bill.id := Sql.autoincrement (map Bill.id (bills db));
            Bill.house_id := house_id;
            Bill.bill_type := bill_type;
            Bill.billing_cycle := billing_cycle;
            Bill.generation_date := generation_date;
            Bill.due_date := due_date;
            Bill.fixed_maintenance := 0;
            Bill.individual_water_consumption := individual_water_consumption;
            Bill.individual_water_charge := individual_water_charge;
            Bill.water_maintenance_25_percent := water_maintenance_25_percent;
            Bill.waste_water_charge := waste_water_charge;
            Bill.repair_charge := repair_charge;
            Bill.previous_balance := previous_balance;
            Bill.total_amount_due := total_amount_due;
            Bill.total_amount_paid := 0;
            Bill.current_balance := current_balance;
            Bill.status := "pending" |} ];
     payments := payments db |}.

(** Body of the [for house in houses] loop of the maintenance branch.
    [today] is [datetime.now().date()]; the calls of [datetime.now()] of one
    request are taken to fall on the same day. *)
Definition generate_maintenance_bill (today : Z) (billing_cycle : string)
    (conn : connection) (house : House.row) : connection :=
  let previous_balance :=
    previous_balance_of (House.id house) "maintenance" (pending conn) in
  let total_due := 3000 + previous_balance in
  let due_date := (today + 15)%Z in
  execute (insert_maintenance_bill (House.id house) "maintenance"
             billing_cycle today due_date 3000 previous_balance
             total_due total_due) conn.

(** Python's [x / n] for a float [x] and an int [n]. *)
Definition py_div (x : Q) (n : nat) : outcome Q :=
  match n with
  | O => Raised ZeroDivisionError
  | S _ => Returned (x / inject_Z (Z.of_nat n))
  end.

Fixpoint for_each {A B : Type} (body : A -> outcome B) (l : list A)
  : outcome (list B) :=
  match l with
  | [] => Returned []
  | a :: rest =>
      b <- body a ;;
      bs <- for_each body rest ;;
      Returned (b :: bs)
  end.

(** [reading['consumption'] if reading and reading['consumption'] else 0]:
    a missing row, a NULL and a zero all give 0. *)
Definition latest_consumption (house_id : Z) (db : Database) : Q :=
  match latest_reading house_id db with
  | Some r =>
      match MeterReading.consumption r with
      | Some c => if Qeq_bool c 0 then 0 else c
      | None => 0
      end
  | None => 0
  end.

(** What the first loop of the preview appends to [house_data]. *)
Definition house_entry (db : Database) (house : House.row)
  : House.row * Q * Q :=
  (house,
   latest_consumption (House.id house) db,
   previous_balance_of (House.id house) "water" db).

(** Body of the second loop of the preview, [for house_info in house_data]. *)
Definition preview_charges (waste_water_charge repair_charge : Q)
    (houses : list House.row) (entry : House.row * Q * Q)
  : outcome HouseInfo.t :=
  let '(house, consumption, previous_balance) := entry in
  let individual_water_charge := consumption * 70 in
  let water_maintenance := individual_water_charge * 0.25 in
  house_waste_water <- py_div waste_water_charge (List.length houses) ;;
  house_repair_charge <- py_div repair_charge (List.length houses) ;;
  let additional_amount :=
    individual_water_charge + water_maintenance + house_waste_water
    + house_repair_charge in
  let total_due := additional_amount + previous_balance in
  Returned
    {| HouseInfo.house := house;
       HouseInfo.consumption := consumption;
       HouseInfo.previous_balance := previous_balance;
       HouseInfo.water_charge := individual_water_charge;
       HouseInfo.water_maintenance := water_maintenance;
       HouseInfo.waste_water := house_waste_water;
       HouseInfo.repair_charge := house_repair_charge;
       HouseInfo.additional_amount := additional_amount;
       HouseInfo.total_due := total_due |}.

(** The preview opens its own connection on the database file, only reads
    from it, and closes it before computing the charges. *)
Definition generate_water_bill_preview (form_data : GenerateForm.t)
    (houses : list House.row) (db : Database) : outcome response :=
  let billing_cycle := GenerateForm.billing_cycle form_data in
  let lnt_main_meter := GenerateForm.lnt_main_meter form_data in
  let lnt_total_bill := GenerateForm.lnt_total_bill form_data in
  let waste_water_charge :=
    get_or_0 (GenerateForm.waste_water_charge form_data) in
  let repair_charge := get_or_0 (GenerateForm.repair_charge form_data) in
  let conn := get_db_connection db in
  let entries := map (house_entry (pending conn)) houses in
  let total_consumption :=
    fold_left (fun total entry => total + snd (fst entry)) entries 0 in
  house_data <-
    for_each (preview_charges waste_water_charge repair_charge houses)
             entries ;;
  Returned (render_water_bill_preview house_data billing_cycle
              lnt_main_meter lnt_total_bill waste_water_charge repair_charge
              total_consumption).

(** Body of the loop of [generate_water_bills_final]. *)
Definition generate_water_bill (today : Z) (form_data : GenerateForm.t)
    (billing_cycle : string) (conn : connection) (house : House.row)
  : connection :=
  let house_id := House.id house in
  let field f := get_or_0 (GenerateForm.per_house form_data f house_id) in
  let water_charge := field water_charge_ in
  let water_maintenance := field water_maintenance_ in
  let waste_water := field waste_water_ in
  let repair_charge := field repair_charge_ in
  let consumption := field consumption_ in
  let previous_balance := field previous_balance_ in
  let total_due :=
    water_charge + water_maintenance + waste_water + repair_charge
    + previous_balance in
  let due_date := (today + 15)%Z in
  execute (insert_water_bill house_id "water" billing_cycle today due_date
             consumption water_charge water_maintenance waste_water
             repair_charge previous_balance total_due total_due) conn.

Definition generate_water_bills_final (today : Z)
    (form_data : GenerateForm.t) (billing_cycle : string)
    (houses : list House.row) (conn : connection) : connection :=
  fold_left (generate_water_bill today form_data billing_cycle) houses conn.

Definition generate_bills (today : Z) (form : GenerateForm.t)
    (db : Database) : outcome response * Database :=
  let billing_cycle := GenerateForm.billing_cycle form in
  let bill_type := GenerateForm.bill_type form in
  let conn := get_db_connection db in
  if (0 <? existing_bills billing_cycle bill_type (pending conn))%Z then
    (Returned (render_generate_bills
                 [(bills_already_generated bill_type, error)]),
     close conn)
  else
    let houses := occupied_houses (pending conn) in
    if String.eqb bill_type "maintenance" then
      let conn :=
        fold_left (generate_maintenance_bill today billing_cycle)
                  houses conn in
      let conn := commit conn in
      (Returned (redirect "bills"
                   [(maintenance_bills_generated (List.length houses),
                     success)]),
       close conn)
    else if String.eqb bill_type "water" then
      if GenerateForm.preview_bills form then
        let db := close conn in
        (generate_water_bill_preview form houses db, db)
      else
        let conn :=
          generate_water_bills_final today form billing_cycle houses conn in
        let conn := commit conn in
        (Returned (redirect "bills"
                     [(water_bills_generated (List.length houses), success)]),
         close conn)
    else
      let conn := commit conn in
      (Returned (redirect "bills" []), close conn).

(** ** Observations used in the statements *)

(** The status rule of the payment reconciler, read off a bill. *)
Definition status_follows_paid (b : Bill.row) : Prop :=
  (Bill.total_amount_due b <= Bill.total_amount_paid b ->
   Bill.status b = "paid")
  /\ (Bill.total_amount_paid b < Bill.total_amount_due b ->
      0 < Bill.total_amount_paid b -> Bill.status b = "partially_paid")
  /\ (Bill.total_amount_paid b < Bill.total_amount_due b ->
      Bill.total_amount_paid b <= 0 -> Bill.status b = "pending").

(** What a payment of [a] does to a bill: [b] before, [b'] after. *)
Definition reconciled (a : Q) (b b' : Bill.row) : Prop :=
  Bill.id b' = Bill.id b
  /\ Bill.total_amount_due b' = Bill.total_amount_due b
  /\ Bill.total_amount_paid b' = Bill.total_amount_paid b + a
  /\ Bill.current_balance b'
     = Bill.total_amount_due b' - Bill.total_amount_paid b'
  /\ status_follows_paid b'.

(** [p] is a bill of [house_id] and [bill_type] in [db] whose billing cycle
    no other such bill exceeds, the cycles being compared as texts. *)
Definition most_recent_bill (house_id : Z) (bill_type : string)
    (db : Database) (p : Bill.row) : Prop :=
  In p (bills db)
  /\ Bill.house_id p = house_id
  /\ Bill.bill_type p = bill_type
  /\ forall q, In q (bills db) -> Bill.house_id q = house_id ->
       Bill.bill_type q = bill_type ->
       String.leb (Bill.billing_cycle q) (Bill.billing_cycle p) = true.



Definition no_bill_of (house_id : Z) (bill_type : string) (db : Database)
  : Prop :=
  forall q, In q (bills db) -> Bill.house_id q = house_id ->
    Bill.bill_type q <> bill_type.

(** [r] is a reading of [house_id] in [db] whose date no other reading of
    the house exceeds, in the order of the column. *)
Definition most_recent_reading (house_id : Z) (db : Database)
    (r : MeterReading.row) : Prop :=
  In r (meter_readings db)
  /\ MeterReading.house_id r = house_id
  /\ forall q, In q (meter_readings db) ->
       MeterReading.house_id q = house_id ->
       Date.leb (MeterReading.reading_date q)
                (MeterReading.reading_date r) = true.

Definition no_reading_of (house_id : Z) (db : Database) : Prop :=
  forall q, In q (meter_readings db) -> MeterReading.house_id q <> house_id.

(** The primary key of [houses]. *)
Definition house_ids_unique (db : Database) : Prop :=
  NoDup (map House.id (houses db)).

(** [b] is the maintenance bill that a run of cycle [cycle] on day [today]
    owes house [h], the previous balances being read from [db]. *)
Definition maintenance_bill_for (today : Z) (cycle : string) (db : Database)
    (h : House.row) (b : Bill.row) : Prop :=
  Bill.house_id b = House.id h
  /\ Bill.bill_type b = "maintenance"
  /\ Bill.billing_cycle b = cycle
  /\ Bill.generation_date b = today
  /\ Bill.due_date b = (today + 15)%Z
  /\ Bill.fixed_maintenance b = 3000
  /\ Bill.total_amount_due b
     = Bill.fixed_maintenance b + Bill.previous_balance b
  /\ Bill.total_amount_paid b = 0
  /\ Bill.current_balance b = Bill.total_amount_due b
  /\ Bill.status b = "pending"
  /\ ((exists p,
         most_recent_bill (House.id h) "maintenance" db p
         /\ Bill.previous_balance b = Bill.current_balance p)
      \/ (no_bill_of (House.id h) "maintenance" db
          /\ Bill.previous_balance b = 0
          /\ Bill.total_amount_due b = 3000
          /\ Bill.current_balance b = 3000)).

(** [i] is the preview row of house [h] when [n] houses share the charges
    [waste_water] and [repair]. *)
Definition preview_row_for (waste_water repair : Q) (n : nat) (db : Database)
    (h : House.row) (i : HouseInfo.t) : Prop :=
  HouseInfo.house i = h
  /\ HouseInfo.consumption i = latest_consumption (House.id h) db
  /\ HouseInfo.previous_balance i
     = previous_balance_of (House.id h) "water" db
  /\ HouseInfo.water_charge i = HouseInfo.consumption i * 70
  /\ HouseInfo.water_maintenance i = HouseInfo.water_charge i * 0.25
  /\ HouseInfo.waste_water i = waste_water / inject_Z (Z.of_nat n)
  /\ HouseInfo.repair_charge i = repair / inject_Z (Z.of_nat n)
  /\ HouseInfo.total_due i
     = HouseInfo.water_charge i + HouseInfo.water_maintenance i
       + HouseInfo.waste_water i + HouseInfo.repair_charge i
       + HouseInfo.previous_balance i.

(** Some bill of [db] has this cycle and type. *)
Definition already_billed (cycle type : string) (db : Database) : Prop :=
  exists b, In b (bills db)
            /\ Bill.billing_cycle b = cycle /\ Bill.bill_type b = type.

(** ** Sample data *)

Module Sample.

Definition house (id : Z) (number status : string) : House.row :=
  {| House.id := id;
     House.house_number := number;
     House.owner_name := "owner";
     House.contact_number := "";
     House.email := "";
     House.address := "";
     House.status := status |}.

Definition h101 := house 1 "H101" "occupied".
Definition h102 := house 2 "H102" "vacant".

Definition empty : Database :=
  {| houses := []; meter_readings := []; bills := []; payments := [] |}.

(** H101 occupied, H102 vacant, nothing billed yet. *)
Definition two_houses : Database :=
  {| houses := [h101; h102];
     meter_readings := []; bills := []; payments := [] |}.

Definition generate (cycle type : string) (preview : bool)
    (waste_water repair : Q) : GenerateForm.t :=
  {| GenerateForm.billing_cycle := cycle;
     GenerateForm.bill_type := type;
     GenerateForm.preview_bills := preview;
     GenerateForm.lnt_main_meter := 0;
     GenerateForm.lnt_total_bill := 0;
     GenerateForm.waste_water_charge := Some waste_water;
     GenerateForm.repair_charge := Some repair;
     GenerateForm.per_house := fun _ _ => None |}.

(** [two_houses] after the maintenance run of cycle 2024-01 on day 100. *)
Definition billed : Database :=
  snd (generate_bills 100 (generate "2024-01" "maintenance" false 0 0)
         two_houses).

(** The bill of H101 in [billed]. *)
Definition bill_h101 : Bill.row :=
  {| Bill.id := 1;
     Bill.house_id := 1;
     Bill.bill_type := "maintenance";
     Bill.billing_cycle := "2024-01";
     Bill.generation_date := 100;
     Bill.due_date := 115;
     Bill.fixed_maintenance := 3000;
     Bill.individual_water_consumption := 0;
     Bill.individual_water_charge := 0;
     Bill.water_maintenance_25_percent := 0;
     Bill.waste_water_charge := 0;
     Bill.repair_charge := 0;
     Bill.previous_balance := 0;
     Bill.total_amount_due := 3000;
     Bill.total_amount_paid := 0;
     Bill.current_balance := 3000;
     Bill.status := "pending" |}.

Definition pay (bill_id : Z) (amount : Q) : PaymentForm.t :=
  {| PaymentForm.house_id := 1;
     PaymentForm.bill_id := bill_id;
     PaymentForm.amount_paid := amount;
     PaymentForm.payment_date := Date.text "2024-01-20";
     PaymentForm.payment_method := "cash";
     PaymentForm.transaction_id := "";
     PaymentForm.notes := "" |}.

(** A reading with an ISO date, as the date field of the form sends it. *)
Definition reading (house_id : Z) (date : string) (current : Q)
  : ReadingForm.t :=
  {| ReadingForm.house_id := house_id;
     ReadingForm.reading_date := Date.text date;
     ReadingForm.current_reading := current |}.

(** A reading whose date was sent as digits only, such as 20240215. *)
Definition reading_dated_in_digits (house_id : Z) (date : Z) (current : Q)
  : ReadingForm.t :=
  {| ReadingForm.house_id := house_id;
     ReadingForm.reading_date := Date.number (inject_Z date);
     ReadingForm.current_reading := current |}.

(** Five occupied houses; house 1 has consumed 10 units. *)
Definition five_houses : Database :=
  snd (add_meter_reading 1 (reading 1 "2024-01-31" 10)
    {| houses := [h101; house 2 "H102" "occupied";
                  house 3 "H103" "occupied"; house 4 "H104" "occupied";
                  house 5 "H105" "occupied"];
       meter_readings := []; bills := []; payments := [] |}).

End Sample.

(** * The rest of the application *)

(** ** More SQL: [ORDER BY] over a whole result, [LIMIT ... OFFSET ...],
       [SUM] *)

(** [ORDER BY]: [before r1 r2] tells that [r1] may come before [r2].  Rows
    that compare equal keep their rowid order. *)
Fixpoint insert_by {row : Type} (before : row -> row -> bool) (r : row)
    (sorted : list row) : list row :=
  match sorted with
  | [] => [r]
  | r' :: rest =>
      if before r r' then r :: r' :: rest
      else r' :: insert_by before r rest
  end.

Definition order_by {row : Type} (before : row -> row -> bool)
    (t : list row) : list row :=
  fold_right (insert_by before) [] t.

(** [LIMIT limit OFFSET offset]; SQLite reads a negative offset as 0. *)
Definition limit_offset {row : Type} (limit offset : Z) (t : list row)
  : list row :=
  firstn (Z.to_nat limit) (skipn (Z.to_nat offset) t).

(** [COALESCE(SUM(x), 0)]. *)
Definition sum_of (xs : list Q) : Q := fold_right Qplus 0 xs.

(** [x > 0] on a [REAL]. *)
Definition positive (x : Q) : bool := negb (Qle_bool x 0).

(** ** [add_house] and [edit_house] *)

(** What the house handlers answer: a redirect or one of their templates,
    with the messages passed to [flash] as (text, category). *)
Inductive page :=
| page_redirect (endpoint : string) (flashed : list (string * string))
| page_add_house (flashed : list (string * string))
| page_edit_house (house : House.row) (flashed : list (string * string)).

Module HouseForm.
Record t := mk {
  house_number : string;
  owner_name : string;
  contact_number : string;
  email : string;
  address : string;
  status : string
}.
End HouseForm.

(** [INSERT INTO houses (house_number, owner_name, contact_number, email,
    address)]; [status] takes its [DEFAULT 'occupied'].  [None] is the
    [sqlite3.IntegrityError] of [house_number TEXT UNIQUE]. *)
Definition insert_house (form : HouseForm.t) (db : Database)
  : option Database :=
  if existsb (fun h => String.eqb (House.house_number h)
                                  (HouseForm.house_number form))
             (houses db)
  then None
  else Some
    {| houses := houses db ++
         [ {| House.id := Sql.autoincrement (map House.id (houses db));
              House.house_number := HouseForm.house_number form;
              House.owner_name := HouseForm.owner_name form;
              House.contact_number := HouseForm.contact_number form;
              House.email := HouseForm.email form;
              House.address := HouseForm.address form;
              House.status := "occupied" |} ];
       meter_readings := meter_readings db;
       bills := bills db;
       payments := payments db |}.

(** [add_house] does not read [status] from its form. *)
Definition add_house (form : HouseForm.t) (db : Database)
  : page * Database :=
  let conn := get_db_connection db in
  match insert_house form (pending conn) with
  | Some written =>
      let conn := {| stored := stored conn; pending := written |} in
      let conn := commit conn in
      (page_redirect "houses" [("House added successfully!", "success")],
       close conn)
  | None =>
      (page_add_house [("House number already exists!", "error")],
       close conn)
  end.

(** The [SET] clause of [UPDATE houses]. *)
Definition set_house (form : HouseForm.t) (h : House.row) : House.row :=
  {| House.id := House.id h;
     House.house_number := HouseForm.house_number form;
     House.owner_name := HouseForm.owner_name form;
     House.contact_number := HouseForm.contact_number form;
     House.email := HouseForm.email form;
     House.address := HouseForm.address form;
     House.status := HouseForm.status form |}.

(** [UPDATE houses SET ... WHERE id = ?]; [None] is the
    [sqlite3.IntegrityError] raised when the row exists and another row
    already has the new house number. *)
Definition update_house (form : HouseForm.t) (house_id : Z) (db : Database)
  : option Database :=
  if existsb (fun h => (House.id h =? house_id)%Z) (houses db)
     && existsb (fun h => negb (House.id h =? house_id)%Z
                          && String.eqb (House.house_number h)
                                        (HouseForm.house_number form))
                (houses db)
  then None
  else Some
    {| houses := map (fun h => if (House.id h =? house_id)%Z
                               then set_house form h else h)
                     (houses db);
       meter_readings := meter_readings db;
       bills := bills db;
       payments := payments db |}.

Definition edit_house (house_id : Z) (form : HouseForm.t) (db : Database)
  : page * Database :=
  let conn := get_db_connection db in
  match find (fun h => (House.id h =? house_id)%Z) (houses (pending conn)) with
  | None =>
      (page_redirect "houses" [("House not found!", "error")], close conn)
  | Some house =>
      match update_house form house_id (pending conn) with
      | Some written =>
          let conn := {| stored := stored conn; pending := written |} in
          let conn := commit conn in
          (page_redirect "houses"
             [("House updated successfully!", "success")],
           close conn)
      | None =>
          (page_edit_house house [("House number already exists!", "error")],
           close conn)
      end
  end.

(** ** [get_house_bills] and [get_house_last_reading] *)

Module HouseBill.
Record t := mk {
  id : Z;
  bill_type : string;
  billing_cycle : string;
  total_amount_due : Q;
  current_balance : Q;
  status : string
}.
End HouseBill.

(** [ORDER BY bill_type, billing_cycle DESC]. *)
Definition by_type_then_cycle_desc (b1 b2 : Bill.row) : bool :=
  match String.compare (Bill.bill_type b1) (Bill.bill_type b2) with
  | Lt => true
  | Gt => false
  | Eq => String.leb (Bill.billing_cycle b2) (Bill.billing_cycle b1)
  end.

(** The rows of the query of [get_house_bills]. *)
Definition open_bills (house_id : Z) (db : Database) : list Bill.row :=
  order_by by_type_then_cycle_desc
    (filter (fun b => (Bill.house_id b =? house_id)%Z
                      && positive (Bill.current_balance b))
            (bills db)).

Definition get_house_bills (house_id : Z) (db : Database)
  : list HouseBill.t :=
  map (fun b => {| HouseBill.id := Bill.id b;
                   HouseBill.bill_type := Bill.bill_type b;
                   HouseBill.billing_cycle := Bill.billing_cycle b;
                   HouseBill.total_amount_due := Bill.total_amount_due b;
                   HouseBill.current_balance := Bill.current_balance b;
                   HouseBill.status := Bill.status b |})
      (open_bills house_id db).

(** [ORDER BY reading_date DESC, id DESC]. *)
Definition by_date_desc_then_id_desc (r1 r2 : MeterReading.row) : bool :=
  match Date.compare (MeterReading.reading_date r2)
                     (MeterReading.reading_date r1) with
  | Lt => true
  | Gt => false
  | Eq => (MeterReading.id r2 <=? MeterReading.id r1)%Z
  end.

(** The readings of a house, newest first, as [get_house_last_reading] and
    the debug routes order them. *)
Definition readings_newest_first (house_id : Z) (db : Database)
  : list MeterReading.row :=
  order_by by_date_desc_then_id_desc
    (filter (fun r => (MeterReading.house_id r =? house_id)%Z)
            (meter_readings db)).

Module LastReading.
Record t := mk {
  reading : Q;
  date : Date.value;
  consumption : Q
}.
End LastReading.

(** [float(row['consumption']) if row['consumption'] else 0]. *)
Definition consumption_or_0 (c : option Q) : Q :=
  match c with
  | Some c => if Qeq_bool c 0 then 0 else c
  | None => 0
  end.

Definition get_house_last_reading (house_id : Z) (db : Database)
  : LastReading.t :=
  match limit_offset 1 0 (readings_newest_first house_id db) with
  | last_reading :: _ =>
      {| LastReading.reading := MeterReading.current_reading last_reading;
         LastReading.date := MeterReading.reading_date last_reading;
         LastReading.consumption :=
           consumption_or_0 (MeterReading.consumption last_reading) |}
  | [] =>
      {| LastReading.reading := 0;
         LastReading.date := Date.text "No previous readings";
         LastReading.consumption := 0 |}
  end.

(** ** Pagination of [bills], [payments] and [meter_readings] *)

Module Pagination.
Record t := mk {
  page : Z;
  per_page : Z;
  total : Z;
  pages : Z;
  has_prev : bool;
  has_next : bool;
  prev_num : option Z;
  next_num : option Z
}.
End Pagination.

(** The three list pages paginate alike: [rows] stands for the result of
    the page's filtered and ordered query, which the handler counts with
    [COUNT( * )] and cuts with [LIMIT per_page OFFSET (page - 1) * per_page],
    [per_page] being 20.  (A resident without a house is answered before,
    with an empty page.) *)
Definition paginate {row : Type} (page : Z) (rows : list row)
  : list row * Pagination.t :=
  let per_page := 20%Z in
  let offset := ((page - 1) * per_page)%Z in
  let total_count := Z.of_nat (List.length rows) in
  let total_pages := ((total_count + per_page - 1) / per_page)%Z in
  (limit_offset per_page offset rows,
   {| Pagination.page := page;
      Pagination.per_page := per_page;
      Pagination.total := total_count;
      Pagination.pages := total_pages;
      Pagination.has_prev := (1 <? page)%Z;
      Pagination.has_next := (page <? total_pages)%Z;
      Pagination.prev_num := if (1 <? page)%Z then Some (page - 1)%Z else None;
      Pagination.next_num :=
        if (page <? total_pages)%Z then Some (page + 1)%Z else None |}).

(** Readings added one after the other by the same user. *)
Definition add_meter_readings (user_id : Z) (forms : list ReadingForm.t)
    (db : Database) : Database :=
  fold_left (fun db form => snd (add_meter_reading user_id form db)) forms db.

(** ** [debug_all_consumptions] *)

Module DebugEntry.
Record t := mk {
  house_number : string;
  owner_name : string;
  readings_count : Z;
  latest_reading : Q;
  stored_consumption : option Q;
  calculated_consumption : Q;
  readings : list (Date.value * Q * option Q)
}.
End DebugEntry.

(** [float(r['consumption']) if r['consumption'] else None]. *)
Definition consumption_or_None (c : option Q) : option Q :=
  match c with
  | Some c => if Qeq_bool c 0 then None else Some c
  | None => None
  end.

(** Body of the loop of [debug_all_consumptions]: the last three readings
    of the house and the consumption recomputed from the last two. *)
Definition debug_consumption (db : Database) (house : House.row)
  : DebugEntry.t :=
  let readings := limit_offset 3 0 (readings_newest_first (House.id house) db) in
  let consumption_calc :=
    match readings with
    | r0 :: r1 :: _ =>
        MeterReading.current_reading r0 - MeterReading.current_reading r1
    | _ => 0
    end in
  {| DebugEntry.house_number := House.house_number house;
     DebugEntry.owner_name := House.owner_name house;
     DebugEntry.readings_count := Z.of_nat (List.length readings);
     DebugEntry.latest_reading :=
       match readings with
       | r0 :: _ => MeterReading.current_reading r0
       | [] => 0
       end;
     DebugEntry.stored_consumption :=
       match readings with
       | r0 :: _ => consumption_or_None (MeterReading.consumption r0)
       | [] => None
       end;
     DebugEntry.calculated_consumption := consumption_calc;
     DebugEntry.readings :=
       map (fun r => (MeterReading.reading_date r,
                      MeterReading.current_reading r,
                      consumption_or_None (MeterReading.consumption r)))
           readings |}.

(** [SELECT * FROM houses WHERE status = "occupied" ORDER BY house_number],
    one entry per house. *)
Definition debug_all_consumptions (db : Database) : list DebugEntry.t :=
  map (debug_consumption db)
      (order_by (fun h1 h2 => String.leb (House.house_number h1)
                                         (House.house_number h2))
                (occupied_houses db)).

(** ** Requests in sequence *)

(** The requests that write to the database, with what the handler needs
    besides the database. *)
Inductive request :=
| post_add_house (form : HouseForm.t)
| post_edit_house (house_id : Z) (form : HouseForm.t)
| post_add_meter_reading (user_id : Z) (form : ReadingForm.t)
| post_generate_bills (today : Z) (form : GenerateForm.t)
| post_record_payment (user_id : Z) (form : PaymentForm.t).

(** The database after the handler of a request has run. *)
Definition handle (db : Database) (r : request) : Database :=
  match r with
  | post_add_house form => snd (add_house form db)
  | post_edit_house house_id form => snd (edit_house house_id form db)
  | post_add_meter_reading user_id form =>
      snd (add_meter_reading user_id form db)
  | post_generate_bills today form => snd (generate_bills today form db)
  | post_record_payment user_id form => snd (record_payment user_id form db)
  end.

Definition serve (requests : list request) (db : Database) : Database :=
  fold_left handle requests db.

(** ** Observations on the whole database *)

(** Every bill's balance is what remains of its amount due. *)
Definition balances_reconcile (db : Database) : Prop :=
  forall b, In b (bills db) ->
    Bill.current_balance b
    == Bill.total_amount_due b - Bill.total_amount_paid b.

(** No bill has a status other than the three the handlers write. *)
Definition statuses_written (db : Database) : Prop :=
  forall b, In b (bills db) ->
    Bill.status b = "pending" \/ Bill.status b = "partially_paid"
    \/ Bill.status b = "paid".

(** The keys of the schema: primary keys and [house_number UNIQUE]. *)
Definition keys_hold (db : Database) : Prop :=
  NoDup (map House.id (houses db))
  /\ NoDup (map House.house_number (houses db))
  /\ NoDup (map MeterReading.id (meter_readings db))
  /\ NoDup (map Bill.id (bills db))
  /\ NoDup (map Payment.id (payments db)).

(** Every bill belongs to a house of the [houses] table. *)
Definition bills_have_houses (db : Database) : Prop :=
  forall b, In b (bills db) ->
    exists h, In h (houses db) /\ House.id h = Bill.house_id b.

(** [SUM(amount_paid)] of the payments recorded for a bill. *)
Definition paid_for (bill_id : Z) (db : Database) : Q :=
  sum_of (map Payment.amount_paid
            (filter (fun p => (Payment.bill_id p =? bill_id)%Z)
                    (payments db))).

(** Every payment names a stored bill, and every bill has been paid the sum
    of the payments recorded for it. *)
Definition payments_reconcile (db : Database) : Prop :=
  (forall p, In p (payments db) ->
     exists b, In b (bills db) /\ Bill.id b = Payment.bill_id p)
  /\ forall b, In b (bills db) ->
       Bill.total_amount_paid b == paid_for (Bill.id b) db.

(** [b] is the water bill that the final generation writes for house [h]
    from the per-house fields of [form]. *)
Definition water_bill_for (today : Z) (form : GenerateForm.t)
    (h : House.row) (b : Bill.row) : Prop :=
  let field f := get_or_0 (GenerateForm.per_house form f (House.id h)) in
  Bill.house_id b = House.id h
  /\ Bill.bill_type b = "water"
  /\ Bill.billing_cycle b = GenerateForm.billing_cycle form
  /\ Bill.generation_date b = today
  /\ Bill.due_date b = (today + 15)%Z
  /\ Bill.fixed_maintenance b = 0
  /\ Bill.individual_water_consumption b = field consumption_
  /\ Bill.individual_water_charge b = field water_charge_
  /\ Bill.water_maintenance_25_percent b = field water_maintenance_
  /\ Bill.waste_water_charge b = field waste_water_
  /\ Bill.repair_charge b = field repair_charge_
  /\ Bill.previous_balance b = field previous_balance_
  /\ Bill.total_amount_due b
     = Bill.individual_water_charge b + Bill.water_maintenance_25_percent b
       + Bill.waste_water_charge b + Bill.repair_charge b
       + Bill.previous_balance b
  /\ Bill.total_amount_paid b = 0
  /\ Bill.current_balance b = Bill.total_amount_due b
  /\ Bill.status b = "pending".

(** The per-house fields of [form] are those of the preview rows [rows]. *)
Definition form_carries_preview (form : GenerateForm.t)
    (rows : list HouseInfo.t) : Prop :=
  forall i, In i rows ->
    let id := House.id (HouseInfo.house i) in
    GenerateForm.per_house form water_charge_ id
    = Some (HouseInfo.water_charge i)
    /\ GenerateForm.per_house form water_maintenance_ id
       = Some (HouseInfo.water_maintenance i)
    /\ GenerateForm.per_house form waste_water_ id
       = Some (HouseInfo.waste_water i)
    /\ GenerateForm.per_house form repair_charge_ id
       = Some (HouseInfo.repair_charge i)
    /\ GenerateForm.per_house form consumption_ id
       = Some (HouseInfo.consumption i)
    /\ GenerateForm.per_house form previous_balance_ id
       = Some (HouseInfo.previous_balance i).

(** The forms are for one house and in strictly increasing order of date,
    in the order of the column. *)
Definition in_date_order (house_id : Z) (forms : list ReadingForm.t) : Prop :=
  Forall (fun form => ReadingForm.house_id form = house_id) forms
  /\ StronglySorted
       (fun f g => Date.ltb (ReadingForm.reading_date f)
                            (ReadingForm.reading_date g) = true)
       forms.

(** [previous_reading_row['current_reading'] if previous_reading_row
    else 0], the value that [add_meter_reading] subtracts. *)
Definition latest_value (house_id : Z) (db : Database) : Q :=
  match latest_reading house_id db with
  | Some r => MeterReading.current_reading r
  | None => 0
  end.

(** [db'] is [db] with the bill [b] appended under a fresh key, as the two
    generation loops do for a house. *)
Definition appends_bill (db db' : Database) (b : Bill.row) : Prop :=
  houses db' = houses db
  /\ meter_readings db' = meter_readings db
  /\ payments db' = payments db
  /\ bills db' = (bills db ++ [b])%list
  /\ Bill.id b = Sql.autoincrement (map Bill.id (bills db))
  /\ Bill.total_amount_paid b = 0
  /\ Bill.current_balance b = Bill.total_amount_due b
  /\ Bill.status b = "pending".

(** Every [post_record_payment] of the sequence names a bill that is stored
    when the request is served. *)
Fixpoint payments_name_bills (requests : list request) (db : Database)
  : Prop :=
  match requests with
  | [] => True
  | r :: rest =>
      match r with
      | post_record_payment _ form =>
          bill_by_id (PaymentForm.bill_id form) db <> None
      | _ => True
      end
      /\ payments_name_bills rest (handle db r)
  end.

(** ** More sample data *)

Module Scenario.

Definition form_h201 : HouseForm.t :=
  {| HouseForm.house_number := "H201";
     HouseForm.owner_name := "owner";
     HouseForm.contact_number := "";
     HouseForm.email := "";
     HouseForm.address := "";
     HouseForm.status := "occupied" |}.

Definition form_h201_vacant : HouseForm.t :=
  {| HouseForm.house_number := "H201";
     HouseForm.owner_name := "owner";
     HouseForm.contact_number := "";
     HouseForm.email := "";
     HouseForm.address := "";
     HouseForm.status := "vacant" |}.

(** A house is added and read twice, billed for maintenance, and pays 1200
    of its 3000. *)
Definition requests : list request :=
  [ post_add_house form_h201;
    post_add_meter_reading 1 (Sample.reading 1 "2024-01-31" 100);
    post_add_meter_reading 1 (Sample.reading 1 "2024-02-29" 112);
    post_generate_bills 100
      (Sample.generate "2024-01" "maintenance" false 0 0);
    post_record_payment 1 (Sample.pay 1 1200) ].

(** H101 under cycle labels that do not sort in the order of the runs: the
    run of cycle 9 and a payment of 1000, then the run of cycle 10 and a
    payment of 500. *)
Definition cycles_9_and_10 : Database :=
  serve
    [ post_generate_bills 100
        (Sample.generate "9" "maintenance" false 0 0);
      post_record_payment 1 (Sample.pay 1 1000);
      post_generate_bills 130
        (Sample.generate "10" "maintenance" false 0 0);
      post_record_payment 1 (Sample.pay 2 500) ]
    Sample.two_houses.

(** The rows of the water preview of [Sample.five_houses]. *)
Definition previewed : list HouseInfo.t :=
  match fst (generate_bills 131
               (Sample.generate "2024-01" "water" true 500 0)
               Sample.five_houses) with
  | Returned (render_water_bill_preview rows _ _ _ _ _ _) => rows
  | _ => []
  end.

Definition field_of (f : water_field) (i : HouseInfo.t) : Q :=
  match f with
  | water_charge_ => HouseInfo.water_charge i
  | water_maintenance_ => HouseInfo.water_maintenance i
  | waste_water_ => HouseInfo.waste_water i
  | repair_charge_ => HouseInfo.repair_charge i
  | consumption_ => HouseInfo.consumption i
  | previous_balance_ => HouseInfo.previous_balance i
  end.

(** The form that posts the previewed values back, unedited. *)
Definition submitted : GenerateForm.t :=
  {| GenerateForm.billing_cycle := "2024-01";
     GenerateForm.bill_type := "water";
     GenerateForm.preview_bills := false;
     GenerateForm.lnt_main_meter := 0;
     GenerateForm.lnt_total_bill := 0;
     GenerateForm.waste_water_charge := Some 500;
     GenerateForm.repair_charge := Some 0;
     GenerateForm.per_house := fun f id =>
       option_map (field_of f)
         (find (fun i => (House.id (HouseInfo.house i) =? id)%Z)
               previewed) |}.

End Scenario.

(** * Properties *)

(** ** The status rule *)

Lemma case_status_paid paid due :
  due <= paid -> case_status paid due = "paid".
Proof.
  intros H. unfold case_status.
  now rewrite (proj2 (Qle_bool_iff due paid) H).
Qed.

Lemma case_status_not_paid paid due :
  paid < due -> Qle_bool due paid = false.
Proof.
  intros H. destruct (Qle_bool due paid) eqn:E; [|reflexivity].
  apply Qle_bool_iff in E. exfalso. lra.
Qed.

Lemma case_status_partially_paid paid due :
  paid < due -> 0 < paid -> case_status paid due = "partially_paid".
Proof.
  intros Hd Hp. unfold case_status.
  rewrite (case_status_not_paid _ _ Hd).
  destruct (Qle_bool paid 0) eqn:E; [|reflexivity].
  apply Qle_bool_iff in E. exfalso. lra.
Qed.

Lemma case_status_pending paid due :
  paid < due -> paid <= 0 -> case_status paid due = "pending".
Proof.
  intros Hd Hp. unfold case_status.
  rewrite (case_status_not_paid _ _ Hd).
  now rewrite (proj2 (Qle_bool_iff paid 0) Hp).
Qed.

#[export] Instance case_status_Proper :
  Proper (Qeq ==> Qeq ==> eq) case_status.
Proof.
  intros p p' Hp d d' Hd. unfold case_status.
  rewrite (Qleb_comp d d' Hd p p' Hp).
  now rewrite (Qleb_comp p p' Hp 0 0 (Qeq_refl 0)).
Qed.

Lemma set_payment_reconciled a b : reconciled a b (set_payment a b).
Proof.
  unfold reconciled, status_follows_paid; cbn.
  repeat split.
  - apply case_status_paid.
  - apply case_status_partially_paid.
  - apply case_status_pending.
Qed.

(** ** [record_payment] unfolded *)

Lemma record_payment_response user form db :
  fst (record_payment user form db)
  = Returned (redirect "payments" [(payment_recorded, success)]).
Proof. reflexivity. Qed.

Lemma record_payment_bills user form db :
  bills (snd (record_payment user form db))
  = map (fun b => if (Bill.id b =? PaymentForm.bill_id form)%Z
                  then set_payment (PaymentForm.amount_paid form) b else b)
        (bills db).
Proof. reflexivity. Qed.

Lemma record_payment_payments user form db :
  exists p,
    payments (snd (record_payment user form db)) = (payments db ++ [p])%list
    /\ Payment.bill_id p = PaymentForm.bill_id form
    /\ Payment.house_id p = PaymentForm.house_id form
    /\ Payment.amount_paid p = PaymentForm.amount_paid form
    /\ Payment.recorded_by p = user.
Proof. eexists; cbn; repeat split. Qed.

Lemma update_leaves_other_bills (f : Bill.row -> Bill.row) bill_id l :
  (forall b, In b l -> Bill.id b <> bill_id) ->
  map (fun b => if (Bill.id b =? bill_id)%Z then f b else b) l = l.
Proof.
  induction l as [|b l IH]; intros H; cbn; [reflexivity|].
  rewrite IH by (intros; apply H; now right).
  destruct (Z.eqb_spec (Bill.id b) bill_id) as [E|_]; [|reflexivity].
  exfalso. apply (H b); [now left|exact E].
Qed.

Lemma bill_by_id_record_payment user form db b :
  bill_by_id (PaymentForm.bill_id form) db = Some b ->
  bill_by_id (PaymentForm.bill_id form) (snd (record_payment user form db))
  = Some (set_payment (PaymentForm.amount_paid form) b).
Proof.
  unfold bill_by_id. rewrite record_payment_bills.
  induction (bills db) as [|x l IH]; cbn; [discriminate|].
  destruct (Z.eqb_spec (Bill.id x) (PaymentForm.bill_id form)) as [E|N].
  - intros [= ->]. cbn. now rewrite (proj2 (Z.eqb_eq _ _) E).
  - rewrite (proj2 (Z.eqb_neq _ _) N). exact IH.
Qed.

Lemma record_payment_updates_bills user form db :
  Forall2
    (fun b b' =>
       (Bill.id b = PaymentForm.bill_id form ->
        reconciled (PaymentForm.amount_paid form) b b')
       /\ (Bill.id b <> PaymentForm.bill_id form -> b' = b))
    (bills db) (bills (snd (record_payment user form db))).
Proof.
  rewrite record_payment_bills.
  induction (bills db) as [|b l IH]; cbn; constructor; [|exact IH].
  destruct (Z.eqb_spec (Bill.id b) (PaymentForm.bill_id form)) as [E|N].
  - split; [intros _; apply set_payment_reconciled|congruence].
  - split; [congruence|reflexivity].
Qed.

(** ** Sequences of payments, in double precision *)

Lemma double_record_payment_Some a b b' :
  Double.record_payment a b = Some b' -> b' = Double.set_payment a b.
Proof.
  unfold Double.record_payment.
  destruct (is_nan a); [discriminate|].
  destruct (is_nan _); [discriminate|]. now intros [= <-].
Qed.

(** After at least one payment the row is a function of the amount due and
    of the running total. *)
Lemma double_record_payments_accumulate amounts :
  forall b b',
    Double.record_payments amounts b = Some b' ->
    amounts <> [] ->
    b' = {| Double.total_amount_due := Double.total_amount_due b;
            Double.total_amount_paid :=
              Double.running_total (Double.total_amount_paid b) amounts;
            Double.current_balance :=
              (Double.total_amount_due b
               - Double.running_total (Double.total_amount_paid b) amounts)
              %float;
            Double.status :=
              Double.case_status
                (Double.running_total (Double.total_amount_paid b) amounts)
                (Double.total_amount_due b) |}.
Proof.
  induction amounts as [|a amounts IH]; intros b b' H Hne; [contradiction|].
  cbn [Double.record_payments] in H.
  destruct (Double.record_payment a b) as [b1|] eqn:E; [|discriminate].
  apply double_record_payment_Some in E. subst b1.
  destruct amounts as [|a' amounts].
  - cbn in H. injection H as <-. reflexivity.
  - apply IH in H; [|discriminate]. subst b'. reflexivity.
Qed.

(** ** Claims on the payment reconciler *)

(** C1.  After [record_payment] with amount [a], every bill with the paid
    bill's id has [total_amount_paid] increased by exactly [a], a
    [current_balance] equal to [total_amount_due] minus the new
    [total_amount_paid] (whatever its sign), unchanged [total_amount_due],
    and the status 'paid' when paid >= due, else 'partially_paid' when
    paid > 0, else 'pending'.  All other bills are left as they were. *)
Theorem record_payment_reconciles user form db :
  Forall2
    (fun b b' =>
       (Bill.id b = PaymentForm.bill_id form ->
        reconciled (PaymentForm.amount_paid form) b b')
       /\ (Bill.id b <> PaymentForm.bill_id form -> b' = b))
    (bills db) (bills (snd (record_payment user form db))).
Proof. apply record_payment_updates_bills. Qed.

(** C9, as stated, fails: the same three payments of 1926.60, 200.18 and
    873.22 on a bill of 3000 end, in this order, with exactly 3000 paid, a
    balance of 0 and the status 'paid'; applied in the order 1926.60, 873.22,
    200.18 they end with less than 3000 paid (2999.9999999999995), a balance
    above 0 and the status 'partially_paid'. *)
Lemma payment_order_changes_the_total :
  Permutation Double.payments_in_order Double.payments_reordered
  /\ exists b1 b2,
       Double.record_payments Double.payments_in_order Double.bill_3000
       = Some b1
       /\ Double.record_payments Double.payments_reordered Double.bill_3000
          = Some b2
       /\ Double.total_amount_paid b1 = 3000%float
       /\ Double.current_balance b1 = 0%float
       /\ Double.status b1 = "paid"
       /\ (Double.total_amount_paid b2 <? 3000)%float = true
       /\ (0 <? Double.current_balance b2)%float = true
       /\ Double.status b2 = "partially_paid".
Proof.
  split; [apply perm_skip, perm_swap|].
  do 2 eexists. repeat split; reflexivity.
Qed.

(** C9, amended.  Payments applied one after the other to a bill, none of
    them refused: the final [total_amount_paid] is the running total of the
    amounts in the order of application, each addition being rounded as
    doubles are; the final [current_balance] is [total_amount_due] minus
    that total, the final status follows the status rule on it, and
    [total_amount_due] is unchanged.  The same payments applied in another
    order end in the same row whenever their running total is the same. *)
Theorem payments_accumulate_in_order amounts amounts' b b1 b2 :
  amounts <> [] ->
  Permutation amounts amounts' ->
  Double.record_payments amounts b = Some b1 ->
  Double.record_payments amounts' b = Some b2 ->
  Double.total_amount_due b1 = Double.total_amount_due b
  /\ Double.total_amount_paid b1
     = Double.running_total (Double.total_amount_paid b) amounts
  /\ Double.current_balance b1
     = (Double.total_amount_due b - Double.total_amount_paid b1)%float
  /\ Double.status b1
     = Double.case_status (Double.total_amount_paid b1)
                          (Double.total_amount_due b)
  /\ (Double.running_total (Double.total_amount_paid b) amounts'
      = Double.running_total (Double.total_amount_paid b) amounts ->
      b2 = b1).
Proof.
  intros Hne Hperm H1 H2.
  assert (Hne' : amounts' <> []).
  { intros ->. apply Permutation_sym, Permutation_nil in Hperm.
    contradiction. }
  apply double_record_payments_accumulate in H1; [|exact Hne].
  apply double_record_payments_accumulate in H2; [|exact Hne'].
  subst b1 b2. cbn. repeat split. now intros ->.
Qed.

Lemma payments_accumulate_in_order_witness :
  Permutation [1200; 1800]%float [1800; 1200]%float
  /\ exists b1,
       Double.record_payments [1200; 1800]%float Double.bill_3000 = Some b1
       /\ Double.record_payments [1800; 1200]%float Double.bill_3000
          = Some b1
       /\ Double.total_amount_paid b1 = 3000%float
       /\ Double.current_balance b1 = 0%float
       /\ Double.status b1 = "paid".
Proof.
  split; [apply perm_swap|].
  destruct (payments_accumulate_in_order
              [1200; 1800]%float [1800; 1200]%float Double.bill_3000
              (Double.set_payment 1800
                 (Double.set_payment 1200 Double.bill_3000))
              (Double.set_payment 1200
                 (Double.set_payment 1800 Double.bill_3000))
              ltac:(discriminate) (perm_swap _ _ _) eq_refl eq_refl)
    as (_ & Hpaid & Hbalance & Hstatus & Hsame).
  exists (Double.set_payment 1800 (Double.set_payment 1200 Double.bill_3000)).
  split; [reflexivity|].
  split; [now rewrite <- (Hsame eq_refl)|].
  split; [now rewrite Hpaid|].
  split; [now rewrite Hbalance|now rewrite Hstatus].
Defined.

(** The payment scenario of the specification: 1200 on a bill of 3000
    leaves 1800 and 'partially_paid'; 1800 more leaves 0 and 'paid'. *)
Example payments_1200_then_1800 :
  let db1 := snd (record_payment 1 (Sample.pay 1 1200) Sample.billed) in
  let db2 := snd (record_payment 1 (Sample.pay 1 1800) db1) in
  option_map (fun b => (Bill.total_amount_paid b, Bill.current_balance b,
                        Bill.status b)) (bill_by_id 1 db1)
  = Some (1200, 1800, "partially_paid")
  /\ option_map (fun b => (Bill.total_amount_paid b, Bill.current_balance b,
                           Bill.status b)) (bill_by_id 1 db2)
     = Some (3000, 0, "paid").
Proof. split; reflexivity. Qed.

(** C7, as stated, fails: a payment of -5 on the bill of H101 is answered
    with the success redirect, its record is stored, and the bill goes from
    0 paid and a balance of 3000 to -5 paid and a balance of 3005. *)
Lemma negative_payment_is_recorded :
  PaymentForm.amount_paid (Sample.pay 1 (-5)) <= 0
  /\ fst (record_payment 1 (Sample.pay 1 (-5)) Sample.billed)
     = Returned (redirect "payments" [(payment_recorded, success)])
  /\ payments Sample.billed = []
  /\ map Payment.amount_paid
       (payments (snd (record_payment 1 (Sample.pay 1 (-5)) Sample.billed)))
     = [-5]
  /\ option_map
       (fun b => (Bill.total_amount_paid b, Bill.current_balance b))
       (bill_by_id 1 Sample.billed)
     = Some (0, 3000)
  /\ option_map
       (fun b => (Bill.total_amount_paid b, Bill.current_balance b))
       (bill_by_id 1 (snd (record_payment 1 (Sample.pay 1 (-5))
                             Sample.billed)))
     = Some (-5, 3005).
Proof.
  split; [discriminate|]. repeat split; reflexivity.
Qed.

(** C7, amended.  [record_payment] does not check the sign of the amount: a
    zero or negative amount is handled like any other.  The handler answers
    with the success redirect, the payment record is appended, and the bill
    with the given id has the amount added to [total_amount_paid], with
    [current_balance] and [status] recomputed; other bills are unchanged. *)
Theorem nonpositive_payment_is_applied user form db :
  PaymentForm.amount_paid form <= 0 ->
  fst (record_payment user form db)
  = Returned (redirect "payments" [(payment_recorded, success)])
  /\ (exists p,
        payments (snd (record_payment user form db))
        = (payments db ++ [p])%list
        /\ Payment.bill_id p = PaymentForm.bill_id form
        /\ Payment.house_id p = PaymentForm.house_id form
        /\ Payment.amount_paid p = PaymentForm.amount_paid form
        /\ Payment.recorded_by p = user)
  /\ Forall2
       (fun b b' =>
          (Bill.id b = PaymentForm.bill_id form ->
           reconciled (PaymentForm.amount_paid form) b b')
          /\ (Bill.id b <> PaymentForm.bill_id form -> b' = b))
       (bills db) (bills (snd (record_payment user form db))).
Proof.
  intros _. split; [apply record_payment_response|].
  split; [apply record_payment_payments|apply record_payment_updates_bills].
Qed.

Lemma nonpositive_payment_is_applied_witness :
  PaymentForm.amount_paid (Sample.pay 1 0) <= 0
  /\ fst (record_payment 1 (Sample.pay 1 0) Sample.billed)
     = Returned (redirect "payments" [(payment_recorded, success)])
  /\ exists p,
       payments (snd (record_payment 1 (Sample.pay 1 0) Sample.billed))
       = (payments Sample.billed ++ [p])%list
       /\ Payment.amount_paid p = 0.
Proof.
  assert (H : PaymentForm.amount_paid (Sample.pay 1 0) <= 0)
    by discriminate.
  split; [exact H|].
  destruct (nonpositive_payment_is_applied 1 (Sample.pay 1 0) Sample.billed H)
    as (Hr & (p & Hp & _ & _ & Ha & _) & _).
  split; [exact Hr|]. exists p. split; [exact Hp|exact Ha].
Defined.

(** C8, at the failing input.  [Sample.billed] holds one bill, of id 1.  A
    payment of 100 for bill 999 is not refused: the handler answers with the
    success redirect and the payment is stored, naming a bill that does not
    exist, although [payments.bill_id] is declared a foreign key on
    [bills (id)]. *)
Lemma payment_for_missing_bill_is_stored :
  map Bill.id (bills Sample.billed) = [1%Z]
  /\ bill_by_id 999 Sample.billed = None
  /\ fst (record_payment 1 (Sample.pay 999 100) Sample.billed)
     = Returned (redirect "payments" [(payment_recorded, success)])
  /\ payments Sample.billed = []
  /\ map (fun p => (Payment.bill_id p, Payment.amount_paid p))
       (payments (snd (record_payment 1 (Sample.pay 999 100) Sample.billed)))
     = [(999%Z, 100)]
  /\ bills (snd (record_payment 1 (Sample.pay 999 100) Sample.billed))
     = bills Sample.billed.
Proof. repeat split; reflexivity. Qed.

(** So it is for every payment that names no stored bill: the payment is
    stored and nothing else changes. *)
Lemma record_payment_of_missing_bill user form db :
  bill_by_id (PaymentForm.bill_id form) db = None ->
  fst (record_payment user form db)
  = Returned (redirect "payments" [(payment_recorded, success)])
  /\ (exists p,
        payments (snd (record_payment user form db))
        = (payments db ++ [p])%list
        /\ Payment.bill_id p = PaymentForm.bill_id form
        /\ Payment.house_id p = PaymentForm.house_id form
        /\ Payment.amount_paid p = PaymentForm.amount_paid form
        /\ Payment.recorded_by p = user)
  /\ bills (snd (record_payment user form db)) = bills db
  /\ houses (snd (record_payment user form db)) = houses db
  /\ meter_readings (snd (record_payment user form db)) = meter_readings db.
Proof.
  intros Hnone. split; [apply record_payment_response|].
  split; [apply record_payment_payments|].
  split; [|split; reflexivity].
  rewrite record_payment_bills. apply update_leaves_other_bills.
  intros b Hin Hid. unfold bill_by_id in Hnone.
  apply (find_none _ _ Hnone) in Hin.
  apply Z.eqb_neq in Hin. contradiction.
Qed.

(** ** [ORDER BY ... DESC LIMIT 1] *)

Section StringOrder.

Lemma ltb_leb a b : String.ltb a b = true -> String.leb a b = true.
Proof.
  unfold String.ltb, String.leb.
  now destruct (String.compare a b).
Qed.

Lemma not_ltb_leb a b : String.ltb a b = false -> String.leb b a = true.
Proof.
  unfold String.ltb, String.leb.
  rewrite (String.compare_antisym b a).
  now destruct (String.compare a b).
Qed.

Lemma leb_refl a : String.leb a a = true.
Proof. destruct (String.leb_total a a); assumption. Qed.

Lemma leb_trans a b c :
  String.leb a b = true -> String.leb b c = true -> String.leb a c = true.
Proof.
  unfold String.leb.
  destruct (String.compare a b) eqn:Eab; try discriminate; intros _.
  - apply String.compare_eq_iff in Eab. now subst b.
  - destruct (String.compare b c) eqn:Ebc; try discriminate; intros _.
    + apply String.compare_eq_iff in Ebc. subst c. now rewrite Eab.
    + apply String_as_OT.cmp_lt in Eab, Ebc.
      pose proof (String_as_OT.lt_trans _ _ _ Eab Ebc) as Hac.
      apply String_as_OT.cmp_lt in Hac.
      unfold String_as_OT.cmp in Hac. now rewrite Hac.
Qed.


Lemma ltb_trans a b c :
  String.ltb a b = true -> String.ltb b c = true -> String.ltb a c = true.
Proof.
  unfold String.ltb.
  destruct (String.compare a b) eqn:Eab; try discriminate; intros _.
  destruct (String.compare b c) eqn:Ebc; try discriminate; intros _.
  apply String_as_OT.cmp_lt in Eab, Ebc.
  pose proof (String_as_OT.lt_trans _ _ _ Eab Ebc) as Hac.
  apply String_as_OT.cmp_lt in Hac.
  unfold String_as_OT.cmp in Hac. now rewrite Hac.
Qed.

End StringOrder.

(** The order of a [DATE] column is a total preorder. *)
Section DateOrder.

Lemma date_compare_antisym a b :
  Date.compare b a = CompOpp (Date.compare a b).
Proof.
  destruct a as [x|s], b as [y|t]; cbn [Date.compare CompOpp];
    try reflexivity.
  - symmetry. apply Qcompare_antisym.
  - apply String.compare_antisym.
Qed.

Lemma date_ltb_leb a b : Date.ltb a b = true -> Date.leb a b = true.
Proof. unfold Date.ltb, Date.leb. now destruct (Date.compare a b). Qed.

Lemma date_not_ltb_leb a b : Date.ltb a b = false -> Date.leb b a = true.
Proof.
  unfold Date.ltb, Date.leb. rewrite (date_compare_antisym a b).
  now destruct (Date.compare a b).
Qed.

Lemma date_ltb_not_leb a b :
  Date.ltb a b = true -> Date.leb b a = true -> False.
Proof.
  unfold Date.ltb, Date.leb. rewrite (date_compare_antisym a b).
  destruct (Date.compare a b); cbn; intros H1 H2; discriminate.
Qed.

Lemma date_leb_number x y :
  Date.leb (Date.number x) (Date.number y) = true <-> x <= y.
Proof.
  unfold Date.leb; cbn [Date.compare]. rewrite Qle_alt.
  destruct (x ?= y); split; congruence.
Qed.

Lemma date_ltb_number x y :
  Date.ltb (Date.number x) (Date.number y) = true <-> x < y.
Proof.
  unfold Date.ltb; cbn [Date.compare]. rewrite Qlt_alt.
  destruct (x ?= y); split; congruence.
Qed.

Lemma date_leb_refl a : Date.leb a a = true.
Proof.
  destruct a as [x|s].
  - apply date_leb_number, Qle_refl.
  - apply (leb_refl s).
Qed.

Lemma date_leb_trans a b c :
  Date.leb a b = true -> Date.leb b c = true -> Date.leb a c = true.
Proof.
  destruct a as [x|s], b as [y|t], c as [z|u]; try discriminate;
    try reflexivity.
  - rewrite !date_leb_number. apply Qle_trans.
  - apply (leb_trans s t u).
Qed.

Lemma date_ltb_trans a b c :
  Date.ltb a b = true -> Date.ltb b c = true -> Date.ltb a c = true.
Proof.
  destruct a as [x|s], b as [y|t], c as [z|u]; try discriminate;
    try reflexivity.
  - rewrite !date_ltb_number. apply Qlt_trans.
  - apply (ltb_trans s t u).
Qed.

End DateOrder.

Section OrderByDesc.
Context {row : Type} (key : row -> string).

(** The row returned has the largest key of the table; no row is returned
    only when the table is empty. *)
Lemma order_by_desc_limit_1_spec (t : list row) :
  match Sql.order_by_desc_limit_1 key t with
  | Some r =>
      In r t /\ forall q, In q t -> String.leb (key q) (key r) = true
  | None => t = []
  end.
Proof.
  induction t as [|x t IH]; cbn; [reflexivity|].
  destruct (Sql.order_by_desc_limit_1 key t) as [r|].
  - destruct IH as [Hin Hmax].
    destruct (String.ltb (key x) (key r)) eqn:E.
    + split; [now right|].
      intros q [<-|Hq]; [now apply ltb_leb|now apply Hmax].
    + split; [now left|].
      intros q [<-|Hq]; [apply leb_refl|].
      eapply leb_trans; [now apply Hmax|now apply not_ltb_leb].
  - subst t. split; [now left|].
    intros q [<-|[]]. apply leb_refl.
Qed.

Lemma order_by_date_desc_limit_1_spec (dated : row -> Date.value)
    (t : list row) :
  match Sql.order_by_date_desc_limit_1 dated t with
  | Some r =>
      In r t /\ forall q, In q t -> Date.leb (dated q) (dated r) = true
  | None => t = []
  end.
Proof.
  induction t as [|x t IH]; cbn; [reflexivity|].
  destruct (Sql.order_by_date_desc_limit_1 dated t) as [r|].
  - destruct IH as [Hin Hmax].
    destruct (Date.ltb (dated x) (dated r)) eqn:E.
    + split; [now right|].
      intros q [<-|Hq]; [now apply date_ltb_leb|now apply Hmax].
    + split; [now left|].
      intros q [<-|Hq]; [apply date_leb_refl|].
      eapply date_leb_trans; [now apply Hmax|now apply date_not_ltb_leb].
  - subst t. split; [now left|].
    intros q [<-|[]]. apply date_leb_refl.
Qed.

End OrderByDesc.

Lemma latest_reading_spec house_id db :
  match latest_reading house_id db with
  | Some r => most_recent_reading house_id db r
  | None => no_reading_of house_id db
  end.
Proof.
  unfold latest_reading.
  pose proof (order_by_date_desc_limit_1_spec MeterReading.reading_date
    (filter (fun r => (MeterReading.house_id r =? house_id)%Z)
            (meter_readings db))) as H.
  destruct (Sql.order_by_date_desc_limit_1 _ _) as [r|].
  - destruct H as [Hin Hmax]. apply filter_In in Hin as [Hin Hid].
    apply Z.eqb_eq in Hid. repeat split; try assumption.
    intros q Hq Hqid. apply Hmax, filter_In.
    split; [assumption|now apply Z.eqb_eq].
  - intros q Hq Hqid.
    assert (Hf : In q (filter (fun r => (MeterReading.house_id r =? house_id)%Z)
                              (meter_readings db))).
    { apply filter_In. split; [assumption|now apply Z.eqb_eq]. }
    rewrite H in Hf. exact Hf.
Qed.

Lemma previous_bill_spec house_id bill_type db :
  match previous_bill house_id bill_type db with
  | Some p => most_recent_bill house_id bill_type db p
  | None => no_bill_of house_id bill_type db
  end.
Proof.
  unfold previous_bill.
  set (sel := fun b => ((Bill.house_id b =? house_id)%Z
                        && String.eqb (Bill.bill_type b) bill_type)%bool).
  assert (Hsel : forall b, sel b = true
                 <-> Bill.house_id b = house_id /\ Bill.bill_type b = bill_type).
  { intros b. unfold sel.
    rewrite andb_true_iff, Z.eqb_eq, String.eqb_eq. reflexivity. }
  pose proof (order_by_desc_limit_1_spec Bill.billing_cycle
                (filter sel (bills db))) as H.
  destruct (Sql.order_by_desc_limit_1 _ _) as [p|].
  - destruct H as [Hin Hmax]. apply filter_In in Hin as [Hin Hp].
    apply Hsel in Hp as [Hid Hty]. repeat split; try assumption.
    intros q Hq Hqid Hqty. apply Hmax, filter_In.
    split; [assumption|]. apply Hsel. now split.
  - intros q Hq Hqid Hqty.
    assert (Hf : In q (filter sel (bills db))).
    { apply filter_In. split; [assumption|]. apply Hsel. now split. }
    rewrite H in Hf. exact Hf.
Qed.

(** ** Claim on the consumption calculator *)

(** C5.  [add_meter_reading] appends one reading for the house.  Its
    [previous_reading] is the [current_reading] of the latest reading of the
    house already stored, one whose [reading_date] no other reading of the
    house exceeds in the order of the column, or 0 when the house has none
    (so a first reading has a consumption equal to its [current_reading]);
    its [consumption] is the signed difference [current_reading -
    previous_reading], negative whenever the new value is below the
    previous one. *)
Theorem add_meter_reading_stores_signed_delta user form db :
  exists r prev,
    meter_readings (snd (add_meter_reading user form db))
    = (meter_readings db ++ [r])%list
    /\ MeterReading.house_id r = ReadingForm.house_id form
    /\ MeterReading.reading_date r = ReadingForm.reading_date form
    /\ MeterReading.current_reading r = ReadingForm.current_reading form
    /\ MeterReading.previous_reading r = Some prev
    /\ MeterReading.consumption r
       = Some (ReadingForm.current_reading form - prev)
    /\ ((exists l,
           most_recent_reading (ReadingForm.house_id form) db l
           /\ prev = MeterReading.current_reading l)
        \/ (no_reading_of (ReadingForm.house_id form) db
            /\ prev = 0
            /\ ReadingForm.current_reading form - prev
               == ReadingForm.current_reading form))
    /\ (ReadingForm.current_reading form < prev ->
        ReadingForm.current_reading form - prev < 0).
Proof.
  unfold add_meter_reading; cbn.
  pose proof (latest_reading_spec (ReadingForm.house_id form) db) as H.
  destruct (latest_reading (ReadingForm.house_id form) db) as [l|].
  - eexists. exists (MeterReading.current_reading l).
    repeat split; try reflexivity.
    + left. exists l. split; [assumption|reflexivity].
    + lra.
  - eexists. exists 0.
    repeat split; try reflexivity.
    + right. split; [assumption|]. split; [reflexivity|ring].
    + lra.
Qed.

(** A meter that goes back from 100 to 50 is stored with consumption -50. *)
Example meter_rollback_is_stored :
  let db1 := snd (add_meter_reading 1 (Sample.reading 1 "2024-01-31" 100)
                    Sample.two_houses) in
  let db2 := snd (add_meter_reading 1 (Sample.reading 1 "2024-02-29" 50)
                    db1) in
  map (fun r => (MeterReading.previous_reading r, MeterReading.consumption r))
      (meter_readings db2)
  = [(Some 0, Some 100); (Some 100, Some (-50))].
Proof. reflexivity. Qed.

(** The order of the column is that of the calendar for ISO dates.  A date
    sent as digits only is stored as a number and ranks below every text:
    after a reading of 10 dated 2024-02-01 and a reading of 50 dated
    20240215, the next reading still takes 10 as its previous value. *)
Example date_in_digits_ranks_below_iso_dates :
  let db1 := snd (add_meter_reading 1 (Sample.reading 1 "2024-02-01" 10)
                    Sample.two_houses) in
  let db2 := snd (add_meter_reading 1
                    (Sample.reading_dated_in_digits 1 20240215 50) db1) in
  let db3 := snd (add_meter_reading 1 (Sample.reading 1 "2024-03-01" 60)
                    db2) in
  map (fun r => (MeterReading.previous_reading r, MeterReading.consumption r))
      (meter_readings db3)
  = [(Some 0, Some 10); (Some 10, Some 40); (Some 10, Some 50)].
Proof. reflexivity. Qed.

(** A reading entered late takes the latest reading, not the one before its
    own date: after 10 on 2024-01-31 and 25 on 2024-02-29, a reading of 20
    dated 2024-02-10 is stored with previous value 25 and consumption -5. *)
Example late_entry_takes_the_latest_reading :
  let db1 := snd (add_meter_reading 1 (Sample.reading 1 "2024-01-31" 10)
                    Sample.two_houses) in
  let db2 := snd (add_meter_reading 1 (Sample.reading 1 "2024-02-29" 25)
                    db1) in
  let db3 := snd (add_meter_reading 1 (Sample.reading 1 "2024-02-10" 20)
                    db2) in
  map (fun r => (MeterReading.previous_reading r, MeterReading.consumption r))
      (meter_readings db3)
  = [(Some 0, Some 10); (Some 10, Some 15); (Some 25, Some (-5))].
Proof. reflexivity. Qed.

(** ** The duplicate check of [generate_bills] *)

Lemma existing_bills_positive cycle type db :
  already_billed cycle type db ->
  (0 <? existing_bills cycle type db)%Z = true.
Proof.
  intros (b & Hin & Hc & Ht). apply Z.ltb_lt.
  unfold existing_bills, Sql.count_where.
  set (sel := fun b => (_ && _)%bool).
  assert (Hf : In b (filter sel (bills db))).
  { apply filter_In. split; [assumption|]. unfold sel.
    apply andb_true_iff. split; now apply String.eqb_eq. }
  destruct (filter sel (bills db)); [contradiction|]. cbn. lia.
Qed.

Lemma existing_bills_none cycle type db :
  ~ already_billed cycle type db ->
  (0 <? existing_bills cycle type db)%Z = false.
Proof.
  intros Hno. apply Z.ltb_ge.
  unfold existing_bills, Sql.count_where.
  set (sel := fun b => (_ && _)%bool).
  destruct (filter sel (bills db)) as [|b l] eqn:E; [cbn; lia|].
  exfalso. apply Hno. exists b.
  assert (Hf : In b (filter sel (bills db))) by (rewrite E; now left).
  apply filter_In in Hf as [Hin Hsel]. unfold sel in Hsel.
  apply andb_true_iff in Hsel as [Hc Ht].
  apply String.eqb_eq in Hc, Ht. now split.
Qed.

(** C2.  When a bill of the requested type and cycle already exists,
    [generate_bills] answers with the error flash 'bills already generated
    for this billing cycle' (the handler's form of a duplicate-bill error)
    and the database is exactly what it was: no bill is written and none is
    modified.  The check is the first thing the handler does with the
    connection. *)
Theorem generate_bills_rejects_duplicates today form db :
  already_billed (GenerateForm.billing_cycle form)
                 (GenerateForm.bill_type form) db ->
  generate_bills today form db
  = (Returned (render_generate_bills
                 [(bills_already_generated (GenerateForm.bill_type form),
                   error)]),
     db).
Proof.
  intros H. unfold generate_bills. cbn [get_db_connection pending].
  now rewrite (existing_bills_positive _ _ _ H).
Qed.

Lemma generate_bills_rejects_duplicates_witness :
  already_billed "2024-01" "maintenance" Sample.billed
  /\ generate_bills 131 (Sample.generate "2024-01" "maintenance" false 0 0)
       Sample.billed
     = (Returned (render_generate_bills
                    [(bills_already_generated "maintenance", error)]),
        Sample.billed).
Proof.
  assert (H : already_billed "2024-01" "maintenance" Sample.billed).
  { exists Sample.bill_h101. repeat split. now left. }
  split; [exact H|].
  exact (generate_bills_rejects_duplicates 131
           (Sample.generate "2024-01" "maintenance" false 0 0)
           Sample.billed H).
Defined.

(** ** The generation loops *)

Lemma occupied_houses_In db h :
  In h (occupied_houses db)
  <-> In h (houses db) /\ House.status h = "occupied".
Proof.
  unfold occupied_houses. rewrite filter_In, String.eqb_eq. reflexivity.
Qed.

Lemma NoDup_map_filter {A B : Type} (f : A -> B) (p : A -> bool) l :
  NoDup (map f l) -> NoDup (map f (filter p l)).
Proof.
  induction l as [|x l IH]; cbn; [trivial|].
  intros H. apply NoDup_cons_iff in H as [Hx Hl].
  destruct (p x); cbn; [|now apply IH].
  constructor; [|now apply IH].
  intros Hin. apply Hx. apply in_map_iff in Hin as (y & Hy & Hin).
  apply filter_In in Hin as [Hin _]. rewrite <- Hy. now apply in_map.
Qed.

Lemma NoDup_map_injective {A B : Type} (f : A -> B) l x y :
  NoDup (map f l) -> In x l -> In y l -> f x = f y -> x = y.
Proof.
  induction l as [|a l IH]; cbn; [contradiction|].
  intros H Hx Hy E. apply NoDup_cons_iff in H as [Ha Hl].
  destruct Hx as [->|Hx], Hy as [->|Hy]; try reflexivity.
  - exfalso. apply Ha. rewrite E. now apply in_map.
  - exfalso. apply Ha. rewrite <- E. now apply in_map.
  - now apply IH.
Qed.

(** A loop whose body appends one bill for its house appends, over a list
    of houses, one bill per house, in order. *)
Lemma loop_appends_bills (body : connection -> House.row -> connection) :
  (forall conn h, exists b,
      bills (pending (body conn h)) = (bills (pending conn) ++ [b])%list
      /\ Bill.house_id b = House.id h) ->
  forall hs conn, exists new,
    bills (pending (fold_left body hs conn))
    = (bills (pending conn) ++ new)%list
    /\ map Bill.house_id new = map House.id hs.
Proof.
  intros Hbody. induction hs as [|h hs IH]; intros conn; cbn [fold_left].
  - exists []. now rewrite app_nil_r.
  - destruct (Hbody conn h) as (b & Hb & Hid).
    destruct (IH (body conn h)) as (new & Hnew & Hids).
    exists (b :: new). rewrite Hnew, Hb, <- app_assoc. cbn.
    split; [reflexivity|]. now rewrite Hid, Hids.
Qed.

Lemma generate_maintenance_bill_appends today cycle conn h :
  exists b,
    bills (pending (generate_maintenance_bill today cycle conn h))
    = (bills (pending conn) ++ [b])%list
    /\ Bill.house_id b = House.id h.
Proof. eexists. cbn. split; reflexivity. Qed.

Lemma generate_water_bill_appends today form cycle conn h :
  exists b,
    bills (pending (generate_water_bill today form cycle conn h))
    = (bills (pending conn) ++ [b])%list
    /\ Bill.house_id b = House.id h.
Proof. eexists. cbn. split; reflexivity. Qed.

(** Bills of other houses do not change what the previous-bill query of a
    house returns. *)
Lemma previous_balance_of_app house_id type db db' acc :
  bills db' = (bills db ++ acc)%list ->
  (forall b, In b acc -> Bill.house_id b <> house_id) ->
  previous_balance_of house_id type db'
  = previous_balance_of house_id type db.
Proof.
  intros Hbills Hacc. unfold previous_balance_of, previous_bill.
  rewrite Hbills, filter_app.
  set (sel := fun b => (_ && _)%bool).
  assert (Hnil : filter sel acc = []).
  { clear Hbills. induction acc as [|b acc IH]; cbn; [reflexivity|].
    rewrite IH by (intros; apply Hacc; now right).
    unfold sel at 1.
    destruct (Z.eqb_spec (Bill.house_id b) house_id) as [E|_];
      [|reflexivity].
    exfalso. apply (Hacc b); [now left|exact E]. }
  now rewrite Hnil, app_nil_r.
Qed.

Lemma maintenance_bill_for_inserted today cycle db h bid :
  maintenance_bill_for today cycle db h
    {| Bill.id := bid;
       Bill.house_id := House.id h;
       Bill.bill_type := "maintenance";
       Bill.billing_cycle := cycle;
       Bill.generation_date := today;
       Bill.due_date := (today + 15)%Z;
       Bill.fixed_maintenance := 3000;
       Bill.individual_water_consumption := 0;
       Bill.individual_water_charge := 0;
       Bill.water_maintenance_25_percent := 0;
       Bill.waste_water_charge := 0;
       Bill.repair_charge := 0;
       Bill.previous_balance :=
         previous_balance_of (House.id h) "maintenance" db;
       Bill.total_amount_due :=
         3000 + previous_balance_of (House.id h) "maintenance" db;
       Bill.total_amount_paid := 0;
       Bill.current_balance :=
         3000 + previous_balance_of (House.id h) "maintenance" db;
       Bill.status := "pending" |}.
Proof.
  unfold maintenance_bill_for; cbn.
  repeat (split; [reflexivity|]).
  unfold previous_balance_of.
  pose proof (previous_bill_spec (House.id h) "maintenance" db) as H.
  destruct (previous_bill (House.id h) "maintenance" db) as [p|].
  - left. exists p. split; [assumption|reflexivity].
  - right. split; [assumption|]. repeat split; reflexivity.
Qed.

(** The maintenance loop, started on a connection that has already
    appended [acc] to the bills of [db]: every house gets the bill it is
    owed, with its previous balance read from [db]. *)
Lemma generate_maintenance_bills_loop today cycle db :
  forall hs acc conn,
    NoDup (map House.id hs) ->
    (forall h b, In h hs -> In b acc -> Bill.house_id b <> House.id h) ->
    bills (pending conn) = (bills db ++ acc)%list ->
    exists new,
      bills (pending (fold_left (generate_maintenance_bill today cycle)
                        hs conn))
      = (bills db ++ acc ++ new)%list
      /\ Forall2 (maintenance_bill_for today cycle db) hs new.
Proof.
  induction hs as [|h hs IH]; intros acc conn Hnd Hacc Hbills;
    cbn [fold_left].
  - exists []. rewrite app_nil_r. split; [assumption|constructor].
  - cbn [map] in Hnd. apply NoDup_cons_iff in Hnd as [Hh Hnd].
    assert (Hprev : previous_balance_of (House.id h) "maintenance"
                      (pending conn)
                    = previous_balance_of (House.id h) "maintenance" db).
    { apply (previous_balance_of_app _ _ _ _ acc Hbills).
      intros b Hb. apply Hacc; [now left|assumption]. }
    set (b := {| Bill.id := Sql.autoincrement
                              (map Bill.id (bills (pending conn)));
                 Bill.house_id := House.id h;
                 Bill.bill_type := "maintenance";
                 Bill.billing_cycle := cycle;
                 Bill.generation_date := today;
                 Bill.due_date := (today + 15)%Z;
                 Bill.fixed_maintenance := 3000;
                 Bill.individual_water_consumption := 0;
                 Bill.individual_water_charge := 0;
                 Bill.water_maintenance_25_percent := 0;
                 Bill.waste_water_charge := 0;
                 Bill.repair_charge := 0;
                 Bill.previous_balance :=
                   previous_balance_of (House.id h) "maintenance" db;
                 Bill.total_amount_due :=
                   3000 + previous_balance_of (House.id h) "maintenance" db;
                 Bill.total_amount_paid := 0;
                 Bill.current_balance :=
                   3000 + previous_balance_of (House.id h) "maintenance" db;
                 Bill.status := "pending" |}).
    assert (Hstep : bills (pending
                             (generate_maintenance_bill today cycle conn h))
                    = (bills db ++ (acc ++ [b]))%list).
    { unfold generate_maintenance_bill.
      cbn [execute pending insert_maintenance_bill bills].
      rewrite Hprev, app_assoc, <- Hbills. reflexivity. }
    assert (Hacc' : forall h' b', In h' hs -> In b' (acc ++ [b])%list ->
                                  Bill.house_id b' <> House.id h').
    { intros h' b' Hh' Hb'. apply in_app_or in Hb' as [Hb'|[<-|[]]].
      - apply Hacc; [now right|assumption].
      - cbn. intros E. apply Hh. rewrite E. now apply in_map. }
    destruct (IH (acc ++ [b])%list _ Hnd Hacc' Hstep) as (new & Hnew & Hall).
    exists (b :: new). split.
    + rewrite Hnew, <- !app_assoc. reflexivity.
    + constructor; [apply maintenance_bill_for_inserted|exact Hall].
Qed.

(** ** Claims on the bill generator *)


(** C3, at the failing input.  H101 has two maintenance bills: the one of
    cycle 9, generated on day 100, with a balance of 2000, and the one of
    cycle 10, generated on day 130, with a balance of 4500.  The run of
    cycle 11 writes H101 a bill that carries 2000 and is due 5000: the
    balance of the older bill, whose cycle is the larger text, and not the
    4500 of the most recent prior bill. *)
Lemma maintenance_run_carries_an_older_balance :
  map (fun b => (Bill.id b, Bill.house_id b, Bill.bill_type b,
                 Bill.billing_cycle b, Bill.generation_date b,
                 Bill.current_balance b))
      (bills Scenario.cycles_9_and_10)
  = [(1%Z, 1%Z, "maintenance", "9", 100%Z, 2000);
     (2%Z, 1%Z, "maintenance", "10", 130%Z, 4500)]
  /\ map (fun b => (Bill.id b, Bill.house_id b, Bill.bill_type b,
                    Bill.billing_cycle b, Bill.previous_balance b,
                    Bill.total_amount_due b))
       (skipn 2
          (bills (snd (generate_bills 160
                         (Sample.generate "11" "maintenance" false 0 0)
                         Scenario.cycles_9_and_10))))
     = [(3%Z, 1%Z, "maintenance", "11", 2000, 5000)].
Proof. split; reflexivity. Qed.

(** The maintenance scenario of the specification: H101 has no earlier
    bill; the run creates a bill of 3000, balance 3000, 'pending'. *)
Example h101_first_maintenance_bill :
  map (fun b => (Bill.house_id b, Bill.total_amount_due b,
                 Bill.current_balance b, Bill.total_amount_paid b,
                 Bill.status b, Bill.due_date b))
      (bills Sample.billed)
  = [(1%Z, 3000, 3000, 0, "pending", 115%Z)].
Proof. reflexivity. Qed.

(** Whatever the form, the bills a call of [generate_bills] adds are one
    per occupied house or none at all. *)
Lemma generate_bills_new_bills today form db :
  exists new,
    bills (snd (generate_bills today form db)) = (bills db ++ new)%list
    /\ (new = [] \/ map Bill.house_id new = map House.id (occupied_houses db)).
Proof.
  unfold generate_bills. cbn [get_db_connection pending].
  destruct (0 <? existing_bills _ _ db)%Z.
  { exists []. cbn. rewrite app_nil_r. now split; [|left]. }
  destruct (String.eqb (GenerateForm.bill_type form) "maintenance").
  { destruct (loop_appends_bills _
                (generate_maintenance_bill_appends today
                   (GenerateForm.billing_cycle form))
                (occupied_houses db) {| stored := db; pending := db |})
      as (new & Hnew & Hids).
    exists new. cbn [snd close commit stored].
    split; [exact Hnew|now right]. }
  destruct (String.eqb (GenerateForm.bill_type form) "water").
  - destruct (GenerateForm.preview_bills form).
    + exists []. cbn. rewrite app_nil_r. now split; [|left].
    + destruct (loop_appends_bills _
                  (generate_water_bill_appends today form
                     (GenerateForm.billing_cycle form))
                  (occupied_houses db) {| stored := db; pending := db |})
        as (new & Hnew & Hids).
      exists new. cbn [snd close commit stored].
      split; [exact Hnew|now right].
  - exists []. cbn. rewrite app_nil_r. now split; [|left].
Qed.

(** C10.  The bills that a generation run adds, maintenance or water and
    whatever the form holds, all belong to houses whose status is
    'occupied'.  House ids being unique, a house with any other status (in
    particular 'vacant') gets no bill from the run. *)
Theorem bills_only_for_occupied_houses today form db :
  exists new,
    bills (snd (generate_bills today form db)) = (bills db ++ new)%list
    /\ (forall b, In b new ->
          exists h, In h (houses db)
                    /\ House.id h = Bill.house_id b
                    /\ House.status h = "occupied")
    /\ (house_ids_unique db ->
        forall h, In h (houses db) -> House.status h <> "occupied" ->
          forall b, In b new -> Bill.house_id b <> House.id h).
Proof.
  destruct (generate_bills_new_bills today form db) as (new & Hnew & Hids).
  assert (Hocc : forall b, In b new ->
            exists h, In h (houses db)
                      /\ House.id h = Bill.house_id b
                      /\ House.status h = "occupied").
  { intros b Hb. destruct Hids as [->|Hids]; [contradiction|].
    apply (in_map Bill.house_id) in Hb. rewrite Hids in Hb.
    apply in_map_iff in Hb as (h & Hid & Hh).
    apply occupied_houses_In in Hh as [Hin Hst].
    exists h. repeat split; assumption. }
  exists new. split; [exact Hnew|]. split; [exact Hocc|].
  intros Huniq h Hh Hvacant b Hb E.
  destruct (Hocc b Hb) as (h' & Hh' & Hid' & Hst').
  assert (h' = h).
  { apply (NoDup_map_injective House.id (houses db)); try assumption.
    congruence. }
  subst h'. contradiction.
Qed.

(** H102 is vacant: neither the maintenance nor the water run bills it. *)
Example vacant_h102_is_not_billed :
  map Bill.house_id (bills Sample.billed) = [1%Z]
  /\ map Bill.house_id
       (bills (snd (generate_bills 100
                      (Sample.generate "2024-01" "water" false 500 0)
                      Sample.two_houses)))
     = [1%Z].
Proof. split; reflexivity. Qed.

(** ** The water-bill preview *)

(** The division of the shared charges is only evaluated inside the loop
    over the houses, where the number of houses is not zero. *)
Lemma preview_loop_returns waste_water repair db hs :
  forall l,
    (l = [] \/ hs <> []) ->
    exists house_data,
      for_each (preview_charges waste_water repair hs)
               (map (house_entry db) l)
      = Returned house_data
      /\ Forall2 (preview_row_for waste_water repair (List.length hs) db)
                 l house_data.
Proof.
  induction l as [|h l IH]; intros Hne.
  - exists []. split; [reflexivity|constructor].
  - destruct Hne as [|Hne]; [discriminate|].
    destruct (IH (or_intror Hne)) as (data & Hdata & Hall).
    destruct hs as [|h0 hs0]; [contradiction|].
    cbn [map for_each]. rewrite Hdata.
    unfold house_entry at 1, preview_charges at 1.
    cbn [List.length py_div bind].
    eexists. split; [reflexivity|].
    constructor; [|exact Hall].
    unfold preview_row_for; cbn. repeat split; reflexivity.
Qed.

Lemma Forall2_In_r {A B : Type} (R : A -> B -> Prop) l l' y :
  Forall2 R l l' -> In y l' -> exists x, In x l /\ R x y.
Proof.
  induction 1 as [|a b l l' Hab _ IH]; cbn; [contradiction|].
  intros [<-|Hy].
  - exists a. split; [now left|assumption].
  - destruct (IH Hy) as (x & Hx & Hxy). exists x. split; [now right|assumption].
Qed.

(** C4.  The preview over the houses [hs] returns (it never divides by
    zero) one row per house, in order, with
    [water_charge = consumption * 70],
    [water_maintenance = water_charge * 0.25],
    [waste_water] and [repair_charge] equal to the shared totals divided by
    the number of houses, and
    [total_due = water_charge + water_maintenance + waste_water
                 + repair_charge + previous_balance].
    With 5 houses, a shared waste-water charge of 500 and no repair charge,
    a house that consumed 10 units is charged 700, 175 and 100, and owes
    975 plus its previous balance. *)
Theorem water_preview_charges form hs db :
  exists house_data total_consumption,
    generate_water_bill_preview form hs db
    = Returned (render_water_bill_preview house_data
                  (GenerateForm.billing_cycle form)
                  (GenerateForm.lnt_main_meter form)
                  (GenerateForm.lnt_total_bill form)
                  (get_or_0 (GenerateForm.waste_water_charge form))
                  (get_or_0 (GenerateForm.repair_charge form))
                  total_consumption)
    /\ Forall2
         (preview_row_for (get_or_0 (GenerateForm.waste_water_charge form))
            (get_or_0 (GenerateForm.repair_charge form)) (List.length hs) db)
         hs house_data
    /\ (List.length hs = 5%nat ->
        get_or_0 (GenerateForm.waste_water_charge form) == 500 ->
        get_or_0 (GenerateForm.repair_charge form) == 0 ->
        forall i, In i house_data -> HouseInfo.consumption i == 10 ->
          HouseInfo.water_charge i == 700
          /\ HouseInfo.water_maintenance i == 175
          /\ HouseInfo.waste_water i == 100
          /\ HouseInfo.repair_charge i == 0
          /\ HouseInfo.total_due i == 975 + HouseInfo.previous_balance i).
Proof.
  unfold generate_water_bill_preview. cbn [get_db_connection pending].
  destruct (preview_loop_returns
              (get_or_0 (GenerateForm.waste_water_charge form))
              (get_or_0 (GenerateForm.repair_charge form)) db hs hs)
    as (data & Hdata & Hall).
  { destruct hs; [now left|now right]. }
  rewrite Hdata. cbn [bind].
  eexists. eexists. split; [reflexivity|]. split; [exact Hall|].
  intros Hlen Hww Hrc i Hi Hcons.
  destruct (Forall2_In_r _ _ _ _ Hall Hi)
    as (h & _ & _ & _ & _ & Hwc & Hwm & Hwaste & Hrep & Htot).
  rewrite Hlen in Hwaste, Hrep.
  change (inject_Z (Z.of_nat 5)) with 5 in Hwaste, Hrep.
  assert (E1 : HouseInfo.water_charge i == 700)
    by (rewrite Hwc, Hcons; reflexivity).
  assert (E2 : HouseInfo.water_maintenance i == 175)
    by (rewrite Hwm, E1; reflexivity).
  assert (E3 : HouseInfo.waste_water i == 100)
    by (rewrite Hwaste, Hww; reflexivity).
  assert (E4 : HouseInfo.repair_charge i == 0)
    by (rewrite Hrep, Hrc; reflexivity).
  repeat split; try assumption.
  rewrite Htot, E1, E2, E3, E4. ring.
Qed.

(** The water scenario of the specification, through the handler: five
    occupied houses, 10 units consumed by the first, 500 of waste-water
    charge to share, no repair charge, no earlier water bill. *)
Example water_preview_of_five_houses :
  match generate_bills 131 (Sample.generate "2024-01" "water" true 500 0)
          Sample.five_houses with
  | (Returned (render_water_bill_preview (i :: rest) _ _ _ _ _ total), db) =>
      db = Sample.five_houses
      /\ List.length rest = 4%nat
      /\ HouseInfo.consumption i == 10
      /\ HouseInfo.water_charge i == 700
      /\ HouseInfo.water_maintenance i == 175
      /\ HouseInfo.waste_water i == 100
      /\ HouseInfo.repair_charge i == 0
      /\ HouseInfo.previous_balance i == 0
      /\ HouseInfo.total_due i == 975
      /\ total == 10
  | _ => False
  end.
Proof. vm_compute. repeat split; reflexivity. Qed.

(** C6, as stated, fails: with no occupied house the preview is rendered
    with no row and the final generation answers with the success redirect
    for 0 houses; neither fails, and the database is what it was. *)
Lemma water_run_without_houses_succeeds :
  occupied_houses Sample.empty = []
  /\ generate_bills 131 (Sample.generate "2024-01" "water" true 500 0)
       Sample.empty
     = (Returned (render_water_bill_preview [] "2024-01" 0 0 500 0 0),
        Sample.empty)
  /\ generate_bills 131 (Sample.generate "2024-01" "water" false 500 0)
       Sample.empty
     = (Returned (redirect "bills" [(water_bills_generated 0, success)]),
        Sample.empty).
Proof. repeat split; reflexivity. Qed.

(** C6, amended.  A water run over no house does not fail, because the
    shared charges are only divided inside the loop over the houses: the
    preview is rendered with an empty list of rows, the final generation
    answers with the success redirect for 0 houses, and the database is
    left as it was. *)
Theorem water_run_without_houses today form db :
  GenerateForm.bill_type form = "water" ->
  ~ already_billed (GenerateForm.billing_cycle form) "water" db ->
  occupied_houses db = [] ->
  generate_bills today form db
  = (if GenerateForm.preview_bills form
     then Returned (render_water_bill_preview []
                      (GenerateForm.billing_cycle form)
                      (GenerateForm.lnt_main_meter form)
                      (GenerateForm.lnt_total_bill form)
                      (get_or_0 (GenerateForm.waste_water_charge form))
                      (get_or_0 (GenerateForm.repair_charge form)) 0)
     else Returned (redirect "bills" [(water_bills_generated 0, success)]),
     db).
Proof.
  intros Hty Hno Hocc. unfold generate_bills.
  cbn [get_db_connection pending]. rewrite Hty.
  rewrite (existing_bills_none _ _ _ Hno), Hocc.
  cbn [String.eqb Ascii.eqb Bool.eqb andb].
  destruct (GenerateForm.preview_bills form); cbn; [reflexivity|].
  now destruct db.
Qed.

Lemma water_run_without_houses_witness :
  ~ already_billed "2024-01" "water" Sample.empty
  /\ occupied_houses Sample.empty = []
  /\ generate_bills 131 (Sample.generate "2024-01" "water" false 500 0)
       Sample.empty
     = (Returned (redirect "bills" [(water_bills_generated 0, success)]),
        Sample.empty).
Proof.
  assert (Hno : ~ already_billed "2024-01" "water" Sample.empty).
  { intros (b & [] & _). }
  split; [exact Hno|]. split; [reflexivity|].
  exact (water_run_without_houses 131
           (Sample.generate "2024-01" "water" false 500 0) Sample.empty
           eq_refl Hno eq_refl).
Defined.

(** * Properties of the rest of the application *)

(** ** Keys *)

Lemma autoincrement_above ids x :
  In x ids -> (x < Sql.autoincrement ids)%Z.
Proof.
  unfold Sql.autoincrement.
  induction ids as [|y ids IH]; cbn [fold_right In].
  - contradiction.
  - intros [->|H]; [lia|]. specialize (IH H). lia.
Qed.

Lemma autoincrement_fresh ids : ~ In (Sql.autoincrement ids) ids.
Proof. intros H. apply autoincrement_above in H. lia. Qed.

Lemma NoDup_map_snoc {A B : Type} (f : A -> B) l x :
  NoDup (map f l) -> ~ In (f x) (map f l) -> NoDup (map f (l ++ [x])).
Proof.
  intros Hl Hx. rewrite map_app. cbn.
  apply NoDup_app; try assumption.
  - repeat constructor. intros [].
  - intros y Hy [<-|[]]. contradiction.
Qed.

(** ** One step of a generation loop *)

Lemma generate_maintenance_bill_step today cycle conn h :
  exists b,
    appends_bill (pending conn)
      (pending (generate_maintenance_bill today cycle conn h)) b
    /\ Bill.house_id b = House.id h.
Proof. eexists. unfold appends_bill. cbn. repeat split. Qed.

Lemma generate_water_bill_step today form cycle conn h :
  exists b,
    appends_bill (pending conn)
      (pending (generate_water_bill today form cycle conn h)) b
    /\ Bill.house_id b = House.id h.
Proof. eexists. unfold appends_bill. cbn. repeat split. Qed.

(** A property of the database that survives the appending of a bill for a
    stored house survives a whole loop over stored houses. *)
Lemma loop_preserves (body : connection -> House.row -> connection)
    (Inv : Database -> Prop) :
  (forall conn h, exists b,
      appends_bill (pending conn) (pending (body conn h)) b
      /\ Bill.house_id b = House.id h) ->
  (forall db db' b h,
      appends_bill db db' b -> Bill.house_id b = House.id h ->
      In h (houses db) -> Inv db -> Inv db') ->
  forall hs conn,
    (forall h, In h hs -> In h (houses (pending conn))) ->
    Inv (pending conn) ->
    Inv (pending (fold_left body hs conn)).
Proof.
  intros Hbody Hstep. induction hs as [|h hs IH]; intros conn Hin Hinv;
    cbn [fold_left]; [assumption|].
  destruct (Hbody conn h) as (b & Happ & Hid).
  apply IH.
  - intros h' Hh'. destruct Happ as (Hh & _). rewrite Hh.
    apply Hin. now right.
  - eapply Hstep; eauto. apply Hin. now left.
Qed.

(** What survives the appending of a bill for a stored house survives
    [generate_bills]. *)
Lemma generate_bills_preserves (Inv : Database -> Prop) :
  (forall db db' b h,
      appends_bill db db' b -> Bill.house_id b = House.id h ->
      In h (houses db) -> Inv db -> Inv db') ->
  forall today form db, Inv db -> Inv (snd (generate_bills today form db)).
Proof.
  intros Hstep today form db Hinv. unfold generate_bills.
  cbn [get_db_connection pending].
  assert (Hocc : forall h, In h (occupied_houses db) -> In h (houses db)).
  { intros h Hh. now apply occupied_houses_In in Hh. }
  destruct (0 <? existing_bills _ _ db)%Z; [exact Hinv|].
  destruct (String.eqb (GenerateForm.bill_type form) "maintenance").
  { cbn [snd close commit stored].
    apply (loop_preserves _ Inv
             (generate_maintenance_bill_step today
                (GenerateForm.billing_cycle form)) Hstep); assumption. }
  destruct (String.eqb (GenerateForm.bill_type form) "water").
  - destruct (GenerateForm.preview_bills form); [exact Hinv|].
    cbn [snd close commit stored]. unfold generate_water_bills_final.
    apply (loop_preserves _ Inv
             (generate_water_bill_step today form
                (GenerateForm.billing_cycle form)) Hstep); assumption.
  - exact Hinv.
Qed.

(** ** The house handlers, unfolded *)

Lemma add_house_cases form db :
  (existsb (fun h => String.eqb (House.house_number h)
                                (HouseForm.house_number form))
           (houses db) = true
   /\ add_house form db
      = (page_add_house [("House number already exists!", "error")], db))
  \/ (existsb (fun h => String.eqb (House.house_number h)
                                   (HouseForm.house_number form))
              (houses db) = false
      /\ exists h,
           add_house form db
           = (page_redirect "houses"
                [("House added successfully!", "success")],
              {| houses := houses db ++ [h];
                 meter_readings := meter_readings db;
                 bills := bills db;
                 payments := payments db |})
           /\ House.id h = Sql.autoincrement (map House.id (houses db))
           /\ House.house_number h = HouseForm.house_number form
           /\ House.owner_name h = HouseForm.owner_name form
           /\ House.status h = "occupied").
Proof.
  unfold add_house, insert_house. cbn [get_db_connection pending].
  destruct (existsb _ (houses db)).
  - left. split; reflexivity.
  - right. split; [reflexivity|]. eexists. cbn. repeat split.
Qed.

Lemma edit_house_cases house_id form db :
  snd (edit_house house_id form db) = db
  \/ ((forall h, In h (houses db) -> House.id h <> house_id ->
         House.house_number h <> HouseForm.house_number form)
      /\ edit_house house_id form db
         = (page_redirect "houses"
              [("House updated successfully!", "success")],
            {| houses := map (fun h => if (House.id h =? house_id)%Z
                                       then set_house form h else h)
                             (houses db);
               meter_readings := meter_readings db;
               bills := bills db;
               payments := payments db |})).
Proof.
  unfold edit_house, update_house. cbn [get_db_connection pending].
  destruct (find _ (houses db)) as [house|] eqn:Hfind; [|left; reflexivity].
  assert (Hex : existsb (fun h => (House.id h =? house_id)%Z) (houses db)
                = true).
  { apply existsb_exists. exists house. now apply find_some in Hfind. }
  rewrite Hex. cbn [andb].
  destruct (existsb (fun h => negb _ && _)%bool (houses db)) eqn:Hother;
    [left; reflexivity|].
  right. split; [|reflexivity].
  intros h Hin Hid Hnum.
  assert (Ht : existsb (fun h => negb (House.id h =? house_id)%Z
                                 && String.eqb (House.house_number h)
                                      (HouseForm.house_number form))
                       (houses db) = true).
  { apply existsb_exists. exists h. split; [assumption|].
    apply andb_true_iff. split.
    - apply negb_true_iff. now apply Z.eqb_neq.
    - now apply String.eqb_eq. }
  congruence.
Qed.

Lemma add_house_ledger form db :
  bills (snd (add_house form db)) = bills db
  /\ payments (snd (add_house form db)) = payments db
  /\ meter_readings (snd (add_house form db)) = meter_readings db.
Proof.
  destruct (add_house_cases form db) as [[_ ->]|[_ (h & -> & _)]];
    repeat split.
Qed.

Lemma edit_house_ledger house_id form db :
  bills (snd (edit_house house_id form db)) = bills db
  /\ payments (snd (edit_house house_id form db)) = payments db
  /\ meter_readings (snd (edit_house house_id form db)) = meter_readings db.
Proof.
  destruct (edit_house_cases house_id form db) as [->|[_ ->]];
    repeat split.
Qed.

Lemma edit_house_ids house_id form db :
  map House.id (houses (snd (edit_house house_id form db)))
  = map House.id (houses db).
Proof.
  destruct (edit_house_cases house_id form db) as [->|[_ ->]];
    [reflexivity|].
  cbn [snd houses]. rewrite map_map. apply map_ext.
  intros h. now destruct (House.id h =? house_id)%Z.
Qed.

Lemma record_payment_bill_ids user form db :
  map Bill.id (bills (snd (record_payment user form db)))
  = map Bill.id (bills db).
Proof.
  rewrite record_payment_bills, map_map. apply map_ext.
  intros b. now destruct (Bill.id b =? PaymentForm.bill_id form)%Z.
Qed.

Lemma record_payment_house_ids user form db :
  map Bill.house_id (bills (snd (record_payment user form db)))
  = map Bill.house_id (bills db).
Proof.
  rewrite record_payment_bills, map_map. apply map_ext.
  intros b. now destruct (Bill.id b =? PaymentForm.bill_id form)%Z.
Qed.

Lemma serve_preserves (Inv : Database -> Prop) :
  (forall db r, Inv db -> Inv (handle db r)) ->
  forall requests db, Inv db -> Inv (serve requests db).
Proof.
  intros Hstep. unfold serve.
  induction requests as [|r requests IH]; intros db Hinv; cbn [fold_left];
    [assumption|].
  apply IH, Hstep, Hinv.
Qed.

(** ** Invariants of the ledger *)

Lemma balances_reconcile_handle db r :
  balances_reconcile db -> balances_reconcile (handle db r).
Proof.
  intros Hinv. destruct r as [form|hid form|user form|today form|user form];
    cbn [handle].
  - intros b. rewrite (proj1 (add_house_ledger form db)). apply Hinv.
  - intros b. rewrite (proj1 (edit_house_ledger hid form db)). apply Hinv.
  - exact Hinv.
  - revert Hinv. apply generate_bills_preserves.
    intros d d' b h (_ & _ & _ & Hb & _ & Hpaid & Hbal & _) _ _ Hd x Hx.
    rewrite Hb in Hx. apply in_app_or in Hx as [Hx|[<-|[]]].
    + now apply Hd.
    + rewrite Hbal, Hpaid. ring.
  - intros b Hb. rewrite record_payment_bills in Hb.
    apply in_map_iff in Hb as (x & <- & Hx).
    destruct (Bill.id x =? PaymentForm.bill_id form)%Z.
    + cbn. reflexivity.
    + now apply Hinv.
Qed.

Lemma case_status_values paid due :
  case_status paid due = "pending"
  \/ case_status paid due = "partially_paid"
  \/ case_status paid due = "paid".
Proof.
  unfold case_status.
  destruct (Qle_bool due paid); [now right; right|].
  destruct (negb (Qle_bool paid 0)); [now right; left|now left].
Qed.

Lemma statuses_written_handle db r :
  statuses_written db -> statuses_written (handle db r).
Proof.
  intros Hinv. destruct r as [form|hid form|user form|today form|user form];
    cbn [handle].
  - intros b. rewrite (proj1 (add_house_ledger form db)). apply Hinv.
  - intros b. rewrite (proj1 (edit_house_ledger hid form db)). apply Hinv.
  - exact Hinv.
  - revert Hinv. apply generate_bills_preserves.
    intros d d' b h (_ & _ & _ & Hb & _ & _ & _ & Hst) _ _ Hd x Hx.
    rewrite Hb in Hx. apply in_app_or in Hx as [Hx|[<-|[]]].
    + now apply Hd.
    + now left.
  - intros b Hb. rewrite record_payment_bills in Hb.
    apply in_map_iff in Hb as (x & <- & Hx).
    destruct (Bill.id x =? PaymentForm.bill_id form)%Z.
    + apply case_status_values.
    + now apply Hinv.
Qed.

Lemma bills_have_houses_handle db r :
  bills_have_houses db -> bills_have_houses (handle db r).
Proof.
  intros Hinv. destruct r as [form|hid form|user form|today form|user form];
    cbn [handle].
  - intros b. rewrite (proj1 (add_house_ledger form db)). intros Hb.
    destruct (Hinv b Hb) as (h & Hh & Hid). exists h. split; [|exact Hid].
    destruct (add_house_cases form db) as [[_ ->]|[_ (n & -> & _)]];
      cbn; [assumption|].
    apply in_or_app. now left.
  - intros b. rewrite (proj1 (edit_house_ledger hid form db)). intros Hb.
    destruct (Hinv b Hb) as (h & Hh & Hid).
    apply (in_map House.id) in Hh.
    rewrite <- (edit_house_ids hid form db) in Hh.
    apply in_map_iff in Hh as (h' & Hid' & Hh').
    exists h'. split; [assumption|congruence].
  - exact Hinv.
  - revert Hinv. apply generate_bills_preserves.
    intros d d' b h (Hh & _ & _ & Hb & _) Hid Hin Hd x Hx.
    rewrite Hh. rewrite Hb in Hx. apply in_app_or in Hx as [Hx|[<-|[]]].
    + now apply Hd.
    + exists h. split; [assumption|now symmetry].
  - intros b Hb. apply (in_map Bill.house_id) in Hb.
    rewrite record_payment_house_ids in Hb.
    apply in_map_iff in Hb as (x & Hx & Hin).
    destruct (Hinv x Hin) as (h & Hh & Hid).
    exists h. split; [exact Hh|congruence].
Qed.

(** Changing the number of the one house with a given id keeps the house
    numbers distinct when no other house has the new number. *)
Lemma update_house_numbers form house_id l :
  NoDup (map House.id l) ->
  NoDup (map House.house_number l) ->
  (forall h, In h l -> House.id h <> house_id ->
     House.house_number h <> HouseForm.house_number form) ->
  NoDup (map House.house_number
           (map (fun h => if (House.id h =? house_id)%Z
                          then set_house form h else h) l)).
Proof.
  induction l as [|x l IH]; cbn [map]; intros Hids Hnums Hother;
    [constructor|].
  apply NoDup_cons_iff in Hids as [Hx Hids].
  apply NoDup_cons_iff in Hnums as [Hnx Hnums].
  constructor.
  - intros Hin. apply in_map_iff in Hin as (y & Hy & Hin).
    apply in_map_iff in Hin as (z & <- & Hz).
    destruct (Z.eqb_spec (House.id x) house_id) as [Ex|Nx];
      destruct (Z.eqb_spec (House.id z) house_id) as [Ez|Nz]; cbn in Hy.
    + apply Hx. rewrite Ex, <- Ez. now apply in_map.
    + apply (Hother z); [now right|assumption|exact Hy].
    + apply (Hother x); [now left|assumption|now symmetry].
    + apply Hnx. rewrite <- Hy. now apply in_map.
  - apply IH; try assumption. intros h Hh. apply Hother. now right.
Qed.

Lemma keys_hold_handle db r : keys_hold db -> keys_hold (handle db r).
Proof.
  intros (Hh & Hn & Hr & Hb & Hp).
  destruct r as [form|hid form|user form|today form|user form];
    cbn [handle].
  - destruct (add_house_cases form db)
      as [[_ ->]|[Hnew (h & -> & Hid & Hnum & _)]];
      cbn [snd]; unfold keys_hold; cbn [houses meter_readings bills payments];
      repeat split; try assumption.
    + apply NoDup_map_snoc; [assumption|].
      rewrite Hid. apply autoincrement_fresh.
    + apply NoDup_map_snoc; [assumption|].
      intros Hin. apply in_map_iff in Hin as (y & Hy & Hin).
      rewrite Hnum in Hy.
      assert (Ht : existsb (fun h => String.eqb (House.house_number h)
                                       (HouseForm.house_number form))
                           (houses db) = true).
      { apply existsb_exists. exists y. split; [assumption|].
        now apply String.eqb_eq. }
      congruence.
  - destruct (edit_house_ledger hid form db) as (Eb & Ep & Er).
    unfold keys_hold. rewrite Eb, Ep, Er, edit_house_ids.
    repeat split; try assumption.
    destruct (edit_house_cases hid form db) as [->|[Hother ->]];
      [assumption|].
    cbn [snd houses]. now apply update_house_numbers.
  - unfold keys_hold; cbn. repeat split; try assumption.
    apply NoDup_map_snoc; [assumption|]. cbn. apply autoincrement_fresh.
  - apply (generate_bills_preserves keys_hold);
      [|unfold keys_hold; now repeat split].
    clear. intros d d' b h (Eh & Er & Ep & Eb & Hid & _) _ _
      (Hh & Hn & Hr & Hb & Hp).
    unfold keys_hold. rewrite Eh, Er, Ep, Eb.
    repeat split; try assumption.
    apply NoDup_map_snoc; [assumption|].
    rewrite Hid. apply autoincrement_fresh.
  - unfold keys_hold. rewrite record_payment_bill_ids.
    cbn [record_payment snd close commit execute get_db_connection stored
         pending update_bill_payment insert_payment houses meter_readings
         payments].
    repeat split; try assumption.
    apply NoDup_map_snoc; [assumption|]. cbn. apply autoincrement_fresh.
Qed.

Lemma sum_of_app xs ys : sum_of (xs ++ ys) == sum_of xs + sum_of ys.
Proof.
  unfold sum_of. induction xs as [|x xs IH]; cbn [app fold_right].
  - ring.
  - rewrite IH. ring.
Qed.

Lemma paid_for_record_payment user form db bill_id :
  paid_for bill_id (snd (record_payment user form db))
  == paid_for bill_id db
     + (if (PaymentForm.bill_id form =? bill_id)%Z
        then PaymentForm.amount_paid form else 0).
Proof.
  unfold paid_for.
  cbn [record_payment snd close commit execute get_db_connection stored
       pending update_bill_payment insert_payment payments].
  rewrite filter_app, map_app, sum_of_app.
  cbn [filter Payment.bill_id].
  destruct (PaymentForm.bill_id form =? bill_id)%Z; cbn; ring.
Qed.

Lemma payments_reconcile_handle db r :
  match r with
  | post_record_payment _ form =>
      bill_by_id (PaymentForm.bill_id form) db <> None
  | _ => True
  end ->
  payments_reconcile db -> payments_reconcile (handle db r).
Proof.
  intros Hguard (Hnames & Hsums).
  destruct r as [form|hid form|user form|today form|user form];
    cbn [handle].
  - destruct (add_house_ledger form db) as (Eb & Ep & _).
    unfold payments_reconcile, paid_for. rewrite Eb, Ep. now split.
  - destruct (edit_house_ledger hid form db) as (Eb & Ep & _).
    unfold payments_reconcile, paid_for. rewrite Eb, Ep. now split.
  - now split.
  - apply (generate_bills_preserves payments_reconcile); [|now split].
    clear. intros d d' b h (_ & _ & Ep & Eb & Hid & Hpaid & _) _ _
      (Hnames & Hsums).
    unfold payments_reconcile, paid_for. rewrite Ep, Eb. split.
    + intros p Hp. destruct (Hnames p Hp) as (x & Hx & E).
      exists x. split; [|exact E]. apply in_or_app. now left.
    + intros x Hx. apply in_app_or in Hx as [Hx|[<-|[]]];
        [now apply Hsums|].
      rewrite Hpaid.
      assert (Hnone : filter (fun p => (Payment.bill_id p =? Bill.id b)%Z)
                             (payments d) = []).
      { destruct (filter _ (payments d)) as [|p l] eqn:F; [reflexivity|].
        assert (Hin : In p (filter (fun p => (Payment.bill_id p
                                              =? Bill.id b)%Z)
                                   (payments d)))
          by (rewrite F; now left).
        apply filter_In in Hin as [Hin E]. apply Z.eqb_eq in E.
        destruct (Hnames p Hin) as (x & Hx & Ex).
        exfalso. apply (autoincrement_fresh (map Bill.id (bills d))).
        rewrite <- Hid, <- E, <- Ex. now apply in_map. }
      rewrite Hnone. reflexivity.
  - split.
    + intros p Hp.
      assert (Hids : forall i, In i (map Bill.id (bills db)) ->
                exists x, In x (bills (snd (record_payment user form db)))
                          /\ Bill.id x = i).
      { intros i Hi. rewrite <- (record_payment_bill_ids user form db) in Hi.
        apply in_map_iff in Hi as (x & E & Hx). now exists x. }
      destruct (record_payment_payments user form db) as (q & Eq & Hq & _).
      rewrite Eq in Hp. apply in_app_or in Hp as [Hp|[<-|[]]].
      * destruct (Hnames p Hp) as (x & Hx & E).
        apply Hids. rewrite <- E. now apply in_map.
      * rewrite Hq. apply Hids.
        destruct (bill_by_id (PaymentForm.bill_id form) db) as [x|] eqn:F;
          [|contradiction].
        unfold bill_by_id in F. apply find_some in F as [Hx E].
        apply Z.eqb_eq in E. rewrite <- E. now apply in_map.
    + intros b Hb. rewrite paid_for_record_payment.
      rewrite record_payment_bills in Hb.
      apply in_map_iff in Hb as (x & <- & Hx).
      destruct (Z.eqb_spec (Bill.id x) (PaymentForm.bill_id form)) as [E|N].
      * cbn [set_payment Bill.total_amount_paid Bill.id].
        rewrite (proj2 (Z.eqb_eq _ _) (eq_sym E)).
        rewrite (Hsums x Hx). reflexivity.
      * rewrite (proj2 (Z.eqb_neq _ _) (fun E => N (eq_sym E))).
        rewrite (Hsums x Hx). ring.
Qed.

(** ** Invariants over sequences of requests *)

(** X1.  Whatever requests are served (houses added or edited, readings
    added, bills generated, payments recorded), if every bill's
    [current_balance] was [total_amount_due - total_amount_paid] before,
    it is so afterwards. *)
Theorem serve_keeps_balances requests db :
  balances_reconcile db -> balances_reconcile (serve requests db).
Proof. apply serve_preserves. intros d r. apply balances_reconcile_handle. Qed.

Lemma serve_keeps_balances_witness :
  balances_reconcile Sample.empty
  /\ balances_reconcile (serve Scenario.requests Sample.empty).
Proof.
  assert (H : balances_reconcile Sample.empty) by (intros b []).
  split; [exact H|].
  exact (serve_keeps_balances Scenario.requests Sample.empty H).
Defined.

(** X2.  No handler writes a status other than 'pending', 'partially_paid'
    and 'paid': if the bills had only these before a sequence of requests,
    they have only these afterwards, and in particular none is 'overdue'. *)
Theorem serve_never_marks_overdue requests db :
  statuses_written db ->
  statuses_written (serve requests db)
  /\ forall b, In b (bills (serve requests db)) ->
       Bill.status b <> "overdue".
Proof.
  intros H.
  assert (H' : statuses_written (serve requests db)).
  { revert H. apply serve_preserves. intros d r.
    apply statuses_written_handle. }
  split; [exact H'|].
  intros b Hb. destruct (H' b Hb) as [E|[E|E]]; rewrite E; discriminate.
Qed.

Lemma serve_never_marks_overdue_witness :
  statuses_written Sample.empty
  /\ forall b, In b (bills (serve Scenario.requests Sample.empty)) ->
       Bill.status b <> "overdue".
Proof.
  assert (H : statuses_written Sample.empty) by (intros b []).
  split; [exact H|].
  exact (proj2 (serve_never_marks_overdue Scenario.requests Sample.empty H)).
Defined.

(** X3.  The keys of the schema survive every sequence of requests: house
    ids, house numbers, reading ids, bill ids and payment ids stay
    pairwise distinct. *)
Theorem serve_keeps_keys requests db :
  keys_hold db -> keys_hold (serve requests db).
Proof. apply serve_preserves. intros d r. apply keys_hold_handle. Qed.

Lemma serve_keeps_keys_witness :
  keys_hold Sample.empty
  /\ keys_hold (serve Scenario.requests Sample.empty).
Proof.
  assert (H : keys_hold Sample.empty)
    by (unfold keys_hold; cbn; repeat split; constructor).
  split; [exact H|].
  exact (serve_keeps_keys Scenario.requests Sample.empty H).
Defined.

(** X4.  Bills are only ever written for stored houses, and houses keep
    their ids: if every bill belonged to a house of the table before a
    sequence of requests, every bill does afterwards. *)
Theorem serve_keeps_bills_with_houses requests db :
  bills_have_houses db -> bills_have_houses (serve requests db).
Proof. apply serve_preserves. intros d r. apply bills_have_houses_handle. Qed.

Lemma serve_keeps_bills_with_houses_witness :
  bills_have_houses Sample.empty
  /\ bills_have_houses (serve Scenario.requests Sample.empty).
Proof.
  assert (H : bills_have_houses Sample.empty) by (intros b []).
  split; [exact H|].
  exact (serve_keeps_bills_with_houses Scenario.requests Sample.empty H).
Defined.

(** X5.  As long as every payment is recorded for a bill that is stored at
    that moment, the [payments] table and the bills agree: every payment
    names a stored bill and every bill's [total_amount_paid] is the sum of
    the payments recorded for it. *)
Theorem serve_keeps_payments_reconciled requests :
  forall db,
    payments_reconcile db ->
    payments_name_bills requests db ->
    payments_reconcile (serve requests db).
Proof.
  unfold serve.
  induction requests as [|r requests IH]; intros db Hinv Hguard;
    cbn [fold_left]; [assumption|].
  destruct Hguard as [Hr Hrest].
  apply IH; [|exact Hrest].
  now apply payments_reconcile_handle.
Qed.

Lemma serve_keeps_payments_reconciled_witness :
  payments_reconcile Sample.empty
  /\ payments_name_bills Scenario.requests Sample.empty
  /\ payments_reconcile (serve Scenario.requests Sample.empty).
Proof.
  assert (H : payments_reconcile Sample.empty)
    by (split; intros x []).
  assert (G : payments_name_bills Scenario.requests Sample.empty)
    by (cbn; repeat split; discriminate).
  split; [exact H|]. split; [exact G|].
  exact (serve_keeps_payments_reconciled Scenario.requests Sample.empty H G).
Defined.

(** Without that condition the tables drift apart: a payment of 100 for
    bill 1, recorded before any bill exists, is later matched by a
    generated bill 1 on which nothing has been paid. *)
Example early_payment_is_not_reconciled :
  let db := serve [ post_record_payment 1 (Sample.pay 1 100);
                    post_generate_bills 100
                      (Sample.generate "2024-01" "maintenance" false 0 0) ]
                  Sample.two_houses in
  option_map Bill.total_amount_paid (bill_by_id 1 db) = Some 0
  /\ paid_for 1 db == 100.
Proof. split; reflexivity. Qed.

(** ** More on bill generation *)

Lemma generate_bills_rejects_duplicates_aux today form db :
  already_billed (GenerateForm.billing_cycle form)
                 (GenerateForm.bill_type form) db ->
  generate_bills today form db
  = (Returned (render_generate_bills
                 [(bills_already_generated (GenerateForm.bill_type form),
                   error)]),
     db).
Proof.
  intros H. unfold generate_bills. cbn [get_db_connection pending].
  now rewrite (existing_bills_positive _ _ _ H).
Qed.

Lemma loop_keeps_bills (body : connection -> House.row -> connection) :
  (forall conn h, exists b,
      appends_bill (pending conn) (pending (body conn h)) b
      /\ Bill.house_id b = House.id h) ->
  forall hs conn x,
    In x (bills (pending conn)) ->
    In x (bills (pending (fold_left body hs conn))).
Proof.
  intros Hbody. induction hs as [|h hs IH]; intros conn x Hx;
    cbn [fold_left]; [assumption|].
  apply IH. destruct (Hbody conn h) as (b & (_ & _ & _ & Hb & _) & _).
  rewrite Hb. apply in_or_app. now left.
Qed.

(** X6.  Running the same generation twice: after a maintenance run or a
    final water run that found at least one occupied house, a second run
    for the same cycle and type is refused with the 'already generated'
    error and changes nothing. *)
Theorem second_run_is_refused today today' form db :
  GenerateForm.bill_type form = "maintenance"
  \/ (GenerateForm.bill_type form = "water"
      /\ GenerateForm.preview_bills form = false) ->
  ~ already_billed (GenerateForm.billing_cycle form)
                   (GenerateForm.bill_type form) db ->
  occupied_houses db <> [] ->
  generate_bills today' form (snd (generate_bills today form db))
  = (Returned (render_generate_bills
                 [(bills_already_generated (GenerateForm.bill_type form),
                   error)]),
     snd (generate_bills today form db)).
Proof.
  intros Hty Hno Hocc.
  apply generate_bills_rejects_duplicates_aux.
  unfold generate_bills. cbn [get_db_connection pending].
  rewrite (existing_bills_none _ _ _ Hno).
  destruct (occupied_houses db) as [|h hs]; [contradiction|].
  destruct Hty as [Hty|[Hty Hfinal]]; rewrite Hty;
    cbn [String.eqb Ascii.eqb Bool.eqb andb]; [|rewrite Hfinal];
    cbn [snd close commit stored fold_left generate_water_bills_final].
  - eexists. split.
    + apply (loop_keeps_bills _
               (generate_maintenance_bill_step today
                  (GenerateForm.billing_cycle form))).
      cbn. apply in_or_app. right. left. reflexivity.
    + split; reflexivity.
  - eexists. split.
    + apply (loop_keeps_bills _
               (generate_water_bill_step today form
                  (GenerateForm.billing_cycle form))).
      cbn. apply in_or_app. right. left. reflexivity.
    + split; reflexivity.
Qed.

Lemma second_run_is_refused_witness :
  ~ already_billed "2024-01" "maintenance" Sample.two_houses
  /\ occupied_houses Sample.two_houses <> []
  /\ generate_bills 131 (Sample.generate "2024-01" "maintenance" false 0 0)
       Sample.billed
     = (Returned (render_generate_bills
                    [(bills_already_generated "maintenance", error)]),
        Sample.billed).
Proof.
  assert (Hno : ~ already_billed "2024-01" "maintenance" Sample.two_houses).
  { intros (b & [] & _). }
  assert (Hocc : occupied_houses Sample.two_houses <> []) by discriminate.
  split; [exact Hno|]. split; [exact Hocc|].
  exact (second_run_is_refused 100 131
           (Sample.generate "2024-01" "maintenance" false 0 0)
           Sample.two_houses (or_introl eq_refl) Hno Hocc).
Defined.

(** The final water loop writes, for every house, the bill made of the
    per-house fields of the form. *)
Lemma generate_water_bills_final_loop today form :
  forall hs conn,
    exists new,
      bills (pending (generate_water_bills_final today form
                        (GenerateForm.billing_cycle form) hs conn))
      = (bills (pending conn) ++ new)%list
      /\ Forall2 (water_bill_for today form) hs new.
Proof.
  unfold generate_water_bills_final.
  induction hs as [|h hs IH]; intros conn; cbn [fold_left].
  - exists []. rewrite app_nil_r. split; [reflexivity|constructor].
  - destruct (IH (generate_water_bill today form
                    (GenerateForm.billing_cycle form) conn h))
      as (new & Hnew & Hall).
    eexists (_ :: new). split.
    + rewrite Hnew. cbn. rewrite <- app_assoc. reflexivity.
    + constructor; [|exact Hall].
      unfold water_bill_for; cbn. repeat split.
Qed.

Lemma generate_bills_water_final today form db :
  GenerateForm.bill_type form = "water" ->
  GenerateForm.preview_bills form = false ->
  ~ already_billed (GenerateForm.billing_cycle form) "water" db ->
  generate_bills today form db
  = (Returned (redirect "bills"
                 [(water_bills_generated (List.length (occupied_houses db)),
                   success)]),
     pending (generate_water_bills_final today form
                (GenerateForm.billing_cycle form) (occupied_houses db)
                {| stored := db; pending := db |})).
Proof.
  intros Hty Hfinal Hno. unfold generate_bills.
  cbn [get_db_connection pending]. rewrite Hty, Hfinal.
  rewrite (existing_bills_none _ _ _ Hno).
  reflexivity.
Qed.

(** X7.  The final water generation appends one bill per occupied house,
    built only from the per-house fields of the submitted form (an absent
    field counts as 0): the total is recomputed as water charge + water
    maintenance + waste water + repair charge + previous balance, nothing
    is paid, the balance is the total and the status 'pending'.  The
    previous balance is the submitted one, not one read from the stored
    bills; when the form has no per-house field at all, every bill is
    written with a total of 0. *)
Theorem water_run_bills today form db :
  GenerateForm.bill_type form = "water" ->
  GenerateForm.preview_bills form = false ->
  ~ already_billed (GenerateForm.billing_cycle form) "water" db ->
  exists new,
    fst (generate_bills today form db)
    = Returned (redirect "bills"
                  [(water_bills_generated (List.length (occupied_houses db)),
                    success)])
    /\ bills (snd (generate_bills today form db)) = (bills db ++ new)%list
    /\ Forall2 (water_bill_for today form) (occupied_houses db) new
    /\ ((forall f id, GenerateForm.per_house form f id = None) ->
        forall b, In b new -> Bill.total_amount_due b == 0).
Proof.
  intros Hty Hfinal Hno.
  rewrite (generate_bills_water_final _ _ _ Hty Hfinal Hno).
  destruct (generate_water_bills_final_loop today form (occupied_houses db)
              {| stored := db; pending := db |}) as (new & Hnew & Hall).
  exists new. cbn [fst snd]. split; [reflexivity|].
  split; [exact Hnew|]. split; [exact Hall|].
  intros Hnone b Hb.
  destruct (Forall2_In_r _ _ _ _ Hall Hb) as (h & _ & Hbill).
  unfold water_bill_for in Hbill.
  destruct Hbill as (_ & _ & _ & _ & _ & _ & _ & Hwc & Hwm & Hww & Hrc & Hpb
                     & Htot & _).
  rewrite Htot, Hwc, Hwm, Hww, Hrc, Hpb, !Hnone. reflexivity.
Qed.

Lemma water_run_bills_witness :
  ~ already_billed "2024-01" "water" Sample.two_houses
  /\ exists new,
       bills (snd (generate_bills 100
                     (Sample.generate "2024-01" "water" false 500 0)
                     Sample.two_houses))
       = (bills Sample.two_houses ++ new)%list
       /\ forall b, In b new -> Bill.total_amount_due b == 0.
Proof.
  assert (Hno : ~ already_billed "2024-01" "water" Sample.two_houses).
  { intros (b & [] & _). }
  split; [exact Hno|].
  destruct (water_run_bills 100
              (Sample.generate "2024-01" "water" false 500 0)
              Sample.two_houses eq_refl eq_refl Hno)
    as (new & _ & Hb & _ & Hzero).
  exists new. split; [exact Hb|]. apply Hzero. reflexivity.
Defined.



(** ** From the preview to the final bills *)

Lemma preview_rows form hs db rows cycle m t ww rc total :
  generate_water_bill_preview form hs db
  = Returned (render_water_bill_preview rows cycle m t ww rc total) ->
  Forall2 (preview_row_for (get_or_0 (GenerateForm.waste_water_charge form))
             (get_or_0 (GenerateForm.repair_charge form))
             (List.length hs) db)
          hs rows
  /\ ww = get_or_0 (GenerateForm.waste_water_charge form)
  /\ rc = get_or_0 (GenerateForm.repair_charge form)
  /\ total = fold_left (fun total entry => total + snd (fst entry))
                       (map (house_entry db) hs) 0.
Proof.
  unfold generate_water_bill_preview. cbn [get_db_connection pending].
  destruct (preview_loop_returns
              (get_or_0 (GenerateForm.waste_water_charge form))
              (get_or_0 (GenerateForm.repair_charge form)) db hs hs)
    as (data & Hdata & Hall).
  { destruct hs; [now left|now right]. }
  rewrite Hdata. cbn [bind]. intros [= <- _ _ _ <- <- <-].
  repeat split. exact Hall.
Qed.

Lemma generate_bills_previews today form db rows cycle m t ww rc total :
  fst (generate_bills today form db)
  = Returned (render_water_bill_preview rows cycle m t ww rc total) ->
  generate_water_bill_preview form (occupied_houses db) db
  = Returned (render_water_bill_preview rows cycle m t ww rc total)
  /\ snd (generate_bills today form db) = db.
Proof.
  unfold generate_bills. cbn [get_db_connection pending].
  destruct (0 <? existing_bills _ _ db)%Z; [discriminate|].
  destruct (String.eqb (GenerateForm.bill_type form) "maintenance");
    [discriminate|].
  destruct (String.eqb (GenerateForm.bill_type form) "water");
    [|discriminate].
  destruct (GenerateForm.preview_bills form); [|discriminate].
  cbn [fst snd close stored]. intros H. split; [exact H|reflexivity].
Qed.

Lemma Forall2_through {A B C : Type} (R1 : A -> B -> Prop)
    (R2 : A -> C -> Prop) (R : B -> C -> Prop) l l1 l2 :
  Forall2 R1 l l1 -> Forall2 R2 l l2 ->
  (forall x y z, In y l1 -> R1 x y -> R2 x z -> R y z) ->
  Forall2 R l1 l2.
Proof.
  intros H1. revert l2.
  induction H1 as [|x y l l1 Hxy _ IH]; intros l2 H2 Hr; inversion H2; subst.
  - constructor.
  - constructor.
    + apply (Hr x); [now left|assumption|assumption].
    + apply IH; [assumption|].
      intros a b c Hb. apply Hr. now right.
Qed.

(** X8.  Preview, then commit: when the final form carries, for every row
    of a preview of the same database, the six per-house values that the
    preview showed, the final generation writes for every previewed house a
    bill whose charges, previous balance and total are exactly those of its
    preview row. *)
Theorem final_bills_match_preview today today' previewed submitted db
    rows cycle m t ww rc total :
  fst (generate_bills today previewed db)
  = Returned (render_water_bill_preview rows cycle m t ww rc total) ->
  GenerateForm.bill_type submitted = "water" ->
  GenerateForm.preview_bills submitted = false ->
  ~ already_billed (GenerateForm.billing_cycle submitted) "water" db ->
  form_carries_preview submitted rows ->
  exists new,
    bills (snd (generate_bills today' submitted db)) = (bills db ++ new)%list
    /\ Forall2
         (fun i b =>
            Bill.house_id b = House.id (HouseInfo.house i)
            /\ Bill.individual_water_consumption b = HouseInfo.consumption i
            /\ Bill.individual_water_charge b = HouseInfo.water_charge i
            /\ Bill.water_maintenance_25_percent b
               = HouseInfo.water_maintenance i
            /\ Bill.waste_water_charge b = HouseInfo.waste_water i
            /\ Bill.repair_charge b = HouseInfo.repair_charge i
            /\ Bill.previous_balance b = HouseInfo.previous_balance i
            /\ Bill.total_amount_due b = HouseInfo.total_due i
            /\ Bill.current_balance b = HouseInfo.total_due i)
         rows new.
Proof.
  intros Hprev Hty Hfinal Hno Hcarry.
  apply generate_bills_previews in Hprev as [Hprev _].
  apply preview_rows in Hprev as (Hrows & _).
  rewrite (generate_bills_water_final _ _ _ Hty Hfinal Hno).
  destruct (generate_water_bills_final_loop today' submitted
              (occupied_houses db) {| stored := db; pending := db |})
    as (new & Hnew & Hall).
  exists new. split; [exact Hnew|].
  apply (Forall2_through _ _ _ _ _ _ Hrows Hall).
  intros h i b Hi Hrow Hbill.
  destruct (Hcarry i Hi) as (Fwc & Fwm & Fww & Frc & Fc & Fpb).
  destruct Hrow as (Hh & _ & _ & _ & _ & _ & _ & Htot).
  rewrite Hh in Fwc, Fwm, Fww, Frc, Fc, Fpb.
  unfold water_bill_for in Hbill. cbv zeta in Hbill.
  rewrite Fwc, Fwm, Fww, Frc, Fc, Fpb in Hbill. cbn [get_or_0] in Hbill.
  destruct Hbill as (Hid & _ & _ & _ & _ & _ & Hc & Hwc & Hwm & Hww & Hrc
                     & Hpb & Hdue & _ & Hbal & _).
  rewrite Hh. repeat split; try assumption.
  - rewrite Hdue, Hwc, Hwm, Hww, Hrc, Hpb, Htot. reflexivity.
  - rewrite Hbal, Hdue, Hwc, Hwm, Hww, Hrc, Hpb, Htot. reflexivity.
Qed.

Lemma final_bills_match_preview_witness :
  form_carries_preview Scenario.submitted Scenario.previewed
  /\ exists new,
       bills (snd (generate_bills 140 Scenario.submitted Sample.five_houses))
       = (bills Sample.five_houses ++ new)%list
       /\ Forall2 (fun i b => Bill.total_amount_due b = HouseInfo.total_due i)
                  Scenario.previewed new.
Proof.
  assert (Hcarry : form_carries_preview Scenario.submitted Scenario.previewed).
  { intros i Hi. vm_compute in Hi.
    repeat (destruct Hi as [<-|Hi]; [vm_compute; repeat split|]).
    destruct Hi. }
  assert (Hno : ~ already_billed
                  (GenerateForm.billing_cycle Scenario.submitted) "water"
                  Sample.five_houses).
  { intros (b & [] & _). }
  split; [exact Hcarry|].
  destruct (final_bills_match_preview 131 140
              (Sample.generate "2024-01" "water" true 500 0)
              Scenario.submitted Sample.five_houses Scenario.previewed
              "2024-01" 0 0 500 0 10 eq_refl eq_refl eq_refl Hno Hcarry)
    as (new & Hb & Hall).
  exists new. split; [exact Hb|].
  revert Hall. apply Forall2_impl. intros i b H. apply H.
Defined.

(** ** Payments and the balance carried into the next bill *)

Lemma order_by_desc_limit_1_map {row : Type} (key : row -> string)
    (g : row -> row) l :
  (forall x, key (g x) = key x) ->
  Sql.order_by_desc_limit_1 key (map g l)
  = option_map g (Sql.order_by_desc_limit_1 key l).
Proof.
  intros Hkey. induction l as [|x l IH]; cbn; [reflexivity|].
  rewrite IH. destruct (Sql.order_by_desc_limit_1 key l) as [r|]; cbn;
    [|reflexivity].
  rewrite !Hkey. now destruct (String.ltb (key x) (key r)).
Qed.

Lemma filter_map_commute {A : Type} (p : A -> bool) (g : A -> A) l :
  (forall x, p (g x) = p x) -> filter p (map g l) = map g (filter p l).
Proof.
  intros Hp. induction l as [|x l IH]; cbn; [reflexivity|].
  rewrite Hp, IH. now destruct (p x).
Qed.

Lemma previous_bill_record_payment user form db house_id type :
  previous_bill house_id type (snd (record_payment user form db))
  = option_map
      (fun b => if (Bill.id b =? PaymentForm.bill_id form)%Z
                then set_payment (PaymentForm.amount_paid form) b else b)
      (previous_bill house_id type db).
Proof.
  unfold previous_bill. rewrite record_payment_bills.
  rewrite filter_map_commute, order_by_desc_limit_1_map; [reflexivity| |];
    intros b; now destruct (Bill.id b =? PaymentForm.bill_id form)%Z.
Qed.

(** X10.  A payment reaches the next bill: after a payment on the bill that
    the previous-balance query returns for a house and bill type, the
    balance that the next bill of that type carries is that bill's
    [total_amount_due - (total_amount_paid + amount)], below zero when the
    new total paid exceeds the amount due; a payment on any other bill
    leaves the carried balance as it was. *)
Theorem payment_is_carried_into_next_bill user form db house_id type p :
  previous_bill house_id type db = Some p ->
  (Bill.id p = PaymentForm.bill_id form ->
   previous_balance_of house_id type (snd (record_payment user form db))
   = Bill.total_amount_due p
     - (Bill.total_amount_paid p + PaymentForm.amount_paid form)
   /\ (Bill.total_amount_due p
       < Bill.total_amount_paid p + PaymentForm.amount_paid form ->
       previous_balance_of house_id type (snd (record_payment user form db))
       < 0))
  /\ (Bill.id p <> PaymentForm.bill_id form ->
      previous_balance_of house_id type (snd (record_payment user form db))
      = previous_balance_of house_id type db).
Proof.
  intros Hp. unfold previous_balance_of.
  rewrite previous_bill_record_payment, Hp. cbn [option_map].
  split; intros Hid.
  - rewrite (proj2 (Z.eqb_eq _ _) Hid).
    cbn [set_payment Bill.current_balance].
    split; [reflexivity|]. intros Hover. lra.
  - now rewrite (proj2 (Z.eqb_neq _ _) Hid).
Qed.

Lemma payment_is_carried_into_next_bill_witness :
  previous_bill 1 "maintenance" Sample.billed = Some Sample.bill_h101
  /\ previous_balance_of 1 "maintenance"
       (snd (record_payment 1 (Sample.pay 1 3500) Sample.billed))
     = 3000 - (0 + 3500)
  /\ previous_balance_of 1 "maintenance"
       (snd (record_payment 1 (Sample.pay 1 3500) Sample.billed))
     < 0.
Proof.
  assert (Hp : previous_bill 1 "maintenance" Sample.billed
               = Some Sample.bill_h101) by reflexivity.
  split; [exact Hp|].
  destruct (proj1 (payment_is_carried_into_next_bill 1 (Sample.pay 1 3500)
                     Sample.billed 1 "maintenance" Sample.bill_h101 Hp)
                  eq_refl) as [Hcarried Hbelow].
  split; [exact Hcarried|]. apply Hbelow. reflexivity.
Defined.

(** ** Readings in sequence *)

(** X11.  Two readings added one after the other for a house: when the
    first is dated later, in the order of the column, than every reading
    the house already had, the second is stored with the first one's value
    as [previous_reading] and with the difference of the two values as
    [consumption], whatever the date of the second. *)
Theorem consecutive_readings_chain user1 user2 first second db :
  (forall r, In r (meter_readings db) ->
     MeterReading.house_id r = ReadingForm.house_id first ->
     Date.ltb (MeterReading.reading_date r)
              (ReadingForm.reading_date first) = true) ->
  ReadingForm.house_id second = ReadingForm.house_id first ->
  exists r1 r2,
    meter_readings
      (snd (add_meter_reading user2 second
              (snd (add_meter_reading user1 first db))))
    = (meter_readings db ++ [r1; r2])%list
    /\ MeterReading.current_reading r1 = ReadingForm.current_reading first
    /\ MeterReading.reading_date r2 = ReadingForm.reading_date second
    /\ MeterReading.current_reading r2 = ReadingForm.current_reading second
    /\ MeterReading.previous_reading r2
       = Some (ReadingForm.current_reading first)
    /\ MeterReading.consumption r2
       = Some (ReadingForm.current_reading second
               - ReadingForm.current_reading first).
Proof.
  intros Hlater Hhouse.
  set (db1 := snd (add_meter_reading user1 first db)).
  assert (Hdb1 : exists r1,
             meter_readings db1 = (meter_readings db ++ [r1])%list
             /\ MeterReading.house_id r1 = ReadingForm.house_id first
             /\ MeterReading.reading_date r1 = ReadingForm.reading_date first
             /\ MeterReading.current_reading r1
                = ReadingForm.current_reading first).
  { eexists. subst db1. cbn. repeat split. }
  destruct Hdb1 as (r1 & Hr1 & Hh1 & Hd1 & Hc1).
  assert (Hlatest : latest_reading (ReadingForm.house_id second) db1
                    = Some r1).
  { pose proof (latest_reading_spec (ReadingForm.house_id second) db1) as H.
    rewrite Hhouse in *.
    destruct (latest_reading (ReadingForm.house_id first) db1) as [r|].
    - destruct H as (Hin & Hid & Hmax). rewrite Hr1 in Hin.
      apply in_app_or in Hin as [Hin|[<-|[]]]; [|reflexivity].
      exfalso. apply (date_ltb_not_leb (MeterReading.reading_date r)
                                       (MeterReading.reading_date r1)).
      + rewrite Hd1. now apply Hlater.
      + apply Hmax; [|assumption]. rewrite Hr1. apply in_or_app.
        right. now left.
    - exfalso. apply (H r1); [|assumption]. rewrite Hr1.
      apply in_or_app. right. now left. }
  exists r1. eexists.
  unfold add_meter_reading at 1.
  cbn [get_db_connection pending snd close commit execute stored
       insert_meter_reading meter_readings].
  fold db1. rewrite Hlatest, Hr1, <- app_assoc, Hc1. cbn [app].
  split; [reflexivity|]. repeat split.
Qed.

Lemma consecutive_readings_chain_witness :
  exists r1 r2,
    meter_readings
      (snd (add_meter_reading 1 (Sample.reading 1 "2024-02-10" 20)
              (snd (add_meter_reading 1 (Sample.reading 1 "2024-02-29" 25)
                      Sample.five_houses))))
    = (meter_readings Sample.five_houses ++ [r1; r2])%list
    /\ MeterReading.previous_reading r2 = Some 25
    /\ MeterReading.consumption r2 = Some (20 - 25).
Proof.
  destruct (consecutive_readings_chain 1 1
              (Sample.reading 1 "2024-02-29" 25)
              (Sample.reading 1 "2024-02-10" 20) Sample.five_houses)
    as (r1 & r2 & H & _ & _ & _ & Hp & Hc).
  - intros r [<-|[]] _. reflexivity.
  - reflexivity.
  - exists r1, r2. split; [exact H|]. split; [exact Hp|exact Hc].
Defined.

(** ** The lookup endpoints *)

Lemma order_by_snoc_first {row : Type} (before : row -> row -> bool) l x :
  (forall a, In a l -> before a x = false) ->
  order_by before (l ++ [x]) = x :: order_by before l.
Proof.
  unfold order_by. induction l as [|a l IH]; intros H; cbn [app fold_right].
  - reflexivity.
  - rewrite IH by (intros; apply H; now right).
    cbn [insert_by]. now rewrite (H a) by now left.
Qed.

Lemma insert_by_Permutation {row : Type} (before : row -> row -> bool) x l :
  Permutation (insert_by before x l) (x :: l).
Proof.
  induction l as [|a l IH]; cbn [insert_by]; [reflexivity|].
  destruct (before x a); [reflexivity|].
  rewrite IH. apply perm_swap.
Qed.

Lemma order_by_Permutation {row : Type} (before : row -> row -> bool) l :
  Permutation (order_by before l) l.
Proof.
  unfold order_by. induction l as [|a l IH]; cbn [fold_right];
    [reflexivity|].
  rewrite insert_by_Permutation. now constructor.
Qed.

Lemma consumption_or_0_eq c : consumption_or_0 (Some c) == c.
Proof.
  unfold consumption_or_0. destruct (Qeq_bool c 0) eqn:E; [|reflexivity].
  apply Qeq_bool_eq in E. now symmetry.
Qed.

(** X12.  The last-reading endpoint after a reading has been added: when
    no reading of the house is dated later than the new one, in the order
    of the column, the endpoint answers with the new reading's value and
    date and with its consumption (the new value minus the value that
    [add_meter_reading] took as the latest before).  A reading of the same
    date added earlier does not hide it: ties go to the larger id. *)
Theorem last_reading_is_the_one_added user form db :
  (forall r, In r (meter_readings db) ->
     MeterReading.house_id r = ReadingForm.house_id form ->
     Date.leb (MeterReading.reading_date r)
              (ReadingForm.reading_date form) = true) ->
  let answer :=
    get_house_last_reading (ReadingForm.house_id form)
      (snd (add_meter_reading user form db)) in
  LastReading.reading answer = ReadingForm.current_reading form
  /\ LastReading.date answer = ReadingForm.reading_date form
  /\ LastReading.consumption answer
     == ReadingForm.current_reading form
        - match latest_reading (ReadingForm.house_id form) db with
          | Some r => MeterReading.current_reading r
          | None => 0
          end.
Proof.
  intros Hdates answer. subst answer.
  unfold get_house_last_reading, readings_newest_first.
  unfold add_meter_reading.
  cbn [get_db_connection pending snd close commit execute stored
       insert_meter_reading meter_readings].
  rewrite filter_app. cbn [filter MeterReading.house_id].
  rewrite Z.eqb_refl.
  rewrite order_by_snoc_first.
  - unfold limit_offset. cbn [Z.to_nat Pos.to_nat Pos.iter_op Nat.add skipn
                              firstn].
    cbn [LastReading.reading LastReading.date LastReading.consumption
         MeterReading.current_reading MeterReading.reading_date
         MeterReading.consumption].
    split; [reflexivity|]. split; [reflexivity|].
    apply consumption_or_0_eq.
  - intros a Ha. apply filter_In in Ha as [Ha Hid].
    apply Z.eqb_eq in Hid.
    unfold by_date_desc_then_id_desc.
    cbn [MeterReading.reading_date MeterReading.id].
    pose proof (Hdates a Ha Hid) as Hle. unfold Date.leb in Hle.
    rewrite (date_compare_antisym (MeterReading.reading_date a)
               (ReadingForm.reading_date form)).
    destruct (Date.compare (MeterReading.reading_date a)
                           (ReadingForm.reading_date form));
      cbn [CompOpp]; try reflexivity; try discriminate.
    apply Z.leb_gt, autoincrement_above. now apply in_map.
Qed.

Lemma last_reading_is_the_one_added_witness :
  LastReading.reading
    (get_house_last_reading 1
       (snd (add_meter_reading 1 (Sample.reading 1 "2024-01-31" 25)
               Sample.five_houses)))
  = 25
  /\ LastReading.consumption
       (get_house_last_reading 1
          (snd (add_meter_reading 1 (Sample.reading 1 "2024-01-31" 25)
                  Sample.five_houses)))
     == 15.
Proof.
  destruct (last_reading_is_the_one_added 1
              (Sample.reading 1 "2024-01-31" 25) Sample.five_houses)
    as (Hr & _ & Hc).
  - intros r [<-|[]] _. reflexivity.
  - split; [exact Hr|]. rewrite Hc. reflexivity.
Defined.

Lemma positive_iff x : positive x = true <-> 0 < x.
Proof.
  unfold positive. rewrite negb_true_iff. split.
  - intros H. destruct (Qlt_le_dec 0 x) as [|Hle]; [assumption|].
    apply Qle_bool_iff in Hle. congruence.
  - intros H. destruct (Qle_bool x 0) eqn:E; [|reflexivity].
    apply Qle_bool_iff in E. exfalso. lra.
Qed.

Lemma open_bills_In house_id db b :
  In b (open_bills house_id db)
  <-> In b (bills db) /\ Bill.house_id b = house_id
      /\ 0 < Bill.current_balance b.
Proof.
  unfold open_bills. split.
  - intros H. apply (Permutation_in _ (order_by_Permutation _ _)) in H.
    apply filter_In in H as [Hin Hsel].
    apply andb_true_iff in Hsel as [Hid Hpos].
    apply Z.eqb_eq in Hid. apply positive_iff in Hpos. now repeat split.
  - intros (Hin & Hid & Hpos).
    apply (Permutation_in _ (Permutation_sym (order_by_Permutation _ _))).
    apply filter_In. split; [assumption|].
    apply andb_true_iff. split; [now apply Z.eqb_eq|now apply positive_iff].
Qed.

(** X13.  What [get_house_bills] offers after a payment on a bill, bill ids
    being distinct.  If the new total paid reaches the amount due, the bill
    has the status 'paid' and is no longer listed for any house.  If it
    stays below the amount due, the bill is still listed for its house,
    with [total_amount_due] minus the new total as balance, and its status
    is not 'paid'. *)
Theorem get_house_bills_after_payment user form db b :
  NoDup (map Bill.id (bills db)) ->
  In b (bills db) ->
  Bill.id b = PaymentForm.bill_id form ->
  (Bill.total_amount_due b
   <= Bill.total_amount_paid b + PaymentForm.amount_paid form ->
   (forall house_id x,
      In x (get_house_bills house_id (snd (record_payment user form db))) ->
      HouseBill.id x <> Bill.id b)
   /\ option_map Bill.status
        (bill_by_id (Bill.id b) (snd (record_payment user form db)))
      = Some "paid")
  /\ (Bill.total_amount_paid b + PaymentForm.amount_paid form
      < Bill.total_amount_due b ->
      exists x,
        In x (get_house_bills (Bill.house_id b)
                (snd (record_payment user form db)))
        /\ HouseBill.id x = Bill.id b
        /\ HouseBill.current_balance x
           = Bill.total_amount_due b
             - (Bill.total_amount_paid b + PaymentForm.amount_paid form)
        /\ HouseBill.status x <> "paid").
Proof.
  intros Hnd Hb Hid.
  assert (Hpaid : In (set_payment (PaymentForm.amount_paid form) b)
                     (bills (snd (record_payment user form db)))).
  { rewrite record_payment_bills.
    apply in_map_iff. exists b. split; [|assumption].
    now rewrite (proj2 (Z.eqb_eq _ _) Hid). }
  split.
  - intros Hcover. split.
    + intros house_id x Hx E. unfold get_house_bills in Hx.
      apply in_map_iff in Hx as (y & <- & Hy). cbn in E.
      apply open_bills_In in Hy as (Hy & _ & Hpos).
      rewrite record_payment_bills in Hy.
      apply in_map_iff in Hy as (z & Hz & Hin).
      assert (z = b).
      { apply (NoDup_map_injective Bill.id (bills db)); try assumption.
        rewrite <- E, <- Hz.
        now destruct (Bill.id z =? PaymentForm.bill_id form)%Z. }
      subst z. rewrite (proj2 (Z.eqb_eq _ _) Hid) in Hz. subst y.
      cbn [set_payment Bill.current_balance] in Hpos. lra.
    + assert (Hfind : bill_by_id (Bill.id b) db = Some b).
      { unfold bill_by_id.
        destruct (find _ (bills db)) as [z|] eqn:F.
        - apply find_some in F as [Hz E]. apply Z.eqb_eq in E.
          f_equal. now apply (NoDup_map_injective Bill.id (bills db)).
        - apply (find_none _ _ F) in Hb. now rewrite Z.eqb_refl in Hb. }
      rewrite Hid in *.
      rewrite (bill_by_id_record_payment _ _ _ _ Hfind).
      cbn [option_map set_payment Bill.status]. f_equal.
      now apply case_status_paid.
  - intros Hpart. eexists. split; [|split; [|split]].
    + unfold get_house_bills. apply in_map.
      apply open_bills_In. split; [exact Hpaid|]. split; [reflexivity|].
      cbn [set_payment Bill.current_balance]. lra.
    + reflexivity.
    + reflexivity.
    + cbn [HouseBill.status set_payment Bill.status]. unfold case_status.
      rewrite (case_status_not_paid _ _ Hpart).
      destruct (negb _); discriminate.
Qed.

Lemma get_house_bills_after_payment_witness :
  In Sample.bill_h101 (bills Sample.billed)
  /\ (forall house_id x,
        In x (get_house_bills house_id
                (snd (record_payment 1 (Sample.pay 1 3000) Sample.billed))) ->
        HouseBill.id x <> 1%Z).
Proof.
  assert (Hin : In Sample.bill_h101 (bills Sample.billed)) by now left.
  split; [exact Hin|].
  refine (proj1 (proj1 (get_house_bills_after_payment 1 (Sample.pay 1 3000)
                          Sample.billed Sample.bill_h101 _ Hin eq_refl) _)).
  - repeat constructor. intros [].
  - discriminate.
Defined.

(** ** Pagination *)

Lemma firstn_add {A : Type} (a b : nat) (l : list A) :
  firstn (a + b) l = (firstn a l ++ firstn b (skipn a l))%list.
Proof.
  revert l. induction a as [|a IH]; intros l; [reflexivity|].
  destruct l as [|x l]; cbn [Nat.add firstn skipn app].
  - now rewrite firstn_nil.
  - now rewrite IH.
Qed.

Lemma page_rows {row : Type} (k : nat) (rows : list row) :
  fst (paginate (Z.of_nat (S k)) rows) = firstn 20 (skipn (20 * k) rows).
Proof.
  unfold paginate, limit_offset. cbn [fst].
  replace (Z.to_nat ((Z.of_nat (S k) - 1) * 20)) with (20 * k)%nat by lia.
  reflexivity.
Qed.

Lemma pages_concat {row : Type} (rows : list row) (n : nat) :
  List.concat (map (fun k => fst (paginate (Z.of_nat k) rows)) (seq 1 n))
  = firstn (20 * n) rows.
Proof.
  induction n as [|n IH]; [reflexivity|].
  rewrite seq_S, map_app, concat_app, IH. cbn [map List.concat Nat.add].
  rewrite app_nil_r, page_rows.
  replace (20 * S n)%nat with (20 * n + 20)%nat by lia.
  now rewrite firstn_add.
Qed.

(** X14.  The pages of a listing neither lose nor repeat a row: the pages
    1 to [pages], one after the other, are the whole result of the query,
    and each holds at most 20 rows. *)
Theorem pages_partition_the_rows {row : Type} (rows : list row) :
  List.concat (map (fun k => fst (paginate (Z.of_nat k) rows))
              (seq 1 (Z.to_nat (Pagination.pages (snd (paginate 1 rows))))))
  = rows
  /\ forall page, (List.length (fst (paginate page rows)) <= 20)%nat.
Proof.
  split.
  - rewrite pages_concat. apply firstn_all2.
    unfold paginate. cbn [snd Pagination.pages].
    set (total := Z.of_nat (List.length rows)).
    assert (total <= 20 * ((total + 20 - 1) / 20))%Z
      by (pose proof (Z.div_mod (total + 20 - 1) 20);
          pose proof (Z.mod_pos_bound (total + 20 - 1) 20); lia).
    lia.
  - intros page. unfold paginate, limit_offset. cbn [fst].
    rewrite length_firstn. change (Z.to_nat 20) with 20%nat. lia.
Qed.

(** X15.  For a page number of at least 1: the page shows a row exactly
    when the number is at most [pages], and [has_next] holds exactly when
    the following page shows a row; [has_prev] holds exactly from page 2
    on. *)
Theorem next_link_iff_next_page {row : Type} (page : Z) (rows : list row) :
  (1 <= page)%Z ->
  let p := snd (paginate page rows) in
  (fst (paginate page rows) <> [] <-> (page <= Pagination.pages p)%Z)
  /\ (Pagination.has_next p = true <-> fst (paginate (page + 1) rows) <> [])
  /\ (Pagination.has_prev p = true <-> (2 <= page)%Z)
  /\ Pagination.next_num p
     = (if Pagination.has_next p then Some (page + 1)%Z else None)
  /\ Pagination.prev_num p
     = (if Pagination.has_prev p then Some (page - 1)%Z else None).
Proof.
  intros Hpage p. subst p.
  assert (Hrows : forall q, (1 <= q)%Z ->
            fst (paginate q rows) <> []
            <-> ((q - 1) * 20 < Z.of_nat (List.length rows))%Z).
  { intros q Hq. unfold paginate, limit_offset. cbn [fst].
    change (Z.to_nat 20) with 20%nat.
    rewrite <- length_zero_iff_nil, length_firstn, length_skipn. lia. }
  assert (Hpages : forall q,
            (q <= (Z.of_nat (List.length rows) + 20 - 1) / 20)%Z
            <-> ((q - 1) * 20 < Z.of_nat (List.length rows))%Z).
  { intros q. set (total := Z.of_nat (List.length rows)).
    pose proof (Z.div_mod (total + 20 - 1) 20).
    pose proof (Z.mod_pos_bound (total + 20 - 1) 20). lia. }
  unfold paginate at 2 3 5 6 7 8. cbn [snd Pagination.pages
    Pagination.has_next Pagination.has_prev Pagination.next_num
    Pagination.prev_num].
  split; [|split; [|split; [|split; reflexivity]]].
  - rewrite Hrows by assumption. symmetry. apply Hpages.
  - rewrite Z.ltb_lt, Hrows by lia.
    rewrite <- (Hpages (page + 1)%Z). lia.
  - rewrite Z.ltb_lt. lia.
Qed.

Lemma next_link_iff_next_page_witness :
  (1 <= 2)%Z
  /\ (Pagination.has_next (snd (paginate 2 (seq 0 45))) = true
      <-> fst (paginate (2 + 1) (seq 0 45)) <> []).
Proof.
  assert (H : (1 <= 2)%Z) by discriminate.
  split; [exact H|].
  exact (proj1 (proj2 (next_link_iff_next_page 2 (seq 0 45) H))).
Defined.

(** ** Houses and the next generation run *)

Lemma Forall2_In_l {A B : Type} (R : A -> B -> Prop) l l' x :
  Forall2 R l l' -> In x l -> exists y, In y l' /\ R x y.
Proof.
  induction 1 as [|a b l l' Hab _ IH]; cbn; [contradiction|].
  intros [<-|Hx].
  - exists b. split; [now left|assumption].
  - destruct (IH Hx) as (y & Hy & Hxy). exists y. split; [now right|assumption].
Qed.

Lemma generate_bills_maintenance today form db :
  GenerateForm.bill_type form = "maintenance" ->
  ~ already_billed (GenerateForm.billing_cycle form) "maintenance" db ->
  generate_bills today form db
  = (Returned (redirect "bills"
                 [(maintenance_bills_generated
                     (List.length (occupied_houses db)), success)]),
     pending (fold_left (generate_maintenance_bill today
                           (GenerateForm.billing_cycle form))
                        (occupied_houses db)
                        {| stored := db; pending := db |})).
Proof.
  intros Hty Hno. unfold generate_bills.
  cbn [get_db_connection pending]. rewrite Hty.
  rewrite (existing_bills_none _ _ _ Hno).
  reflexivity.
Qed.

(** X18.  A house that has just been added is occupied and is billed by
    the next maintenance run: house ids being distinct and every bill
    belonging to a stored house, adding a house with an unused number
    succeeds, and a maintenance run for a cycle not yet billed then writes
    it a bill of 3000 with no previous balance, balance 3000, 'pending'. *)
Theorem new_house_is_billed today house_form form db :
  NoDup (map House.id (houses db)) ->
  bills_have_houses db ->
  (forall h, In h (houses db) ->
     House.house_number h <> HouseForm.house_number house_form) ->
  GenerateForm.bill_type form = "maintenance" ->
  ~ already_billed (GenerateForm.billing_cycle form) "maintenance" db ->
  fst (add_house house_form db)
  = page_redirect "houses" [("House added successfully!", "success")]
  /\ exists b,
       In b (bills (snd (generate_bills today form
                           (snd (add_house house_form db)))))
       /\ Bill.house_id b = Sql.autoincrement (map House.id (houses db))
       /\ Bill.billing_cycle b = GenerateForm.billing_cycle form
       /\ Bill.previous_balance b = 0
       /\ Bill.total_amount_due b = 3000
       /\ Bill.current_balance b = 3000
       /\ Bill.status b = "pending".
Proof.
  intros Hids Hhouses Hnum Hty Hno.
  destruct (add_house_cases house_form db)
    as [[Hex _]|[_ (h & Hadd & Hid & _ & _ & Hst)]].
  { apply existsb_exists in Hex as (x & Hx & E).
    apply String.eqb_eq in E. now apply Hnum in Hx. }
  rewrite Hadd. cbn [fst snd]. split; [reflexivity|].
  set (db1 := {| houses := houses db ++ [h];
                 meter_readings := meter_readings db;
                 bills := bills db;
                 payments := payments db |}).
  assert (Hno1 : ~ already_billed (GenerateForm.billing_cycle form)
                   "maintenance" db1) by exact Hno.
  rewrite (generate_bills_maintenance today form db1 Hty Hno1). cbn [snd].
  assert (Hids1 : NoDup (map House.id (houses db1))).
  { cbn [db1 houses]. apply NoDup_map_snoc; [assumption|].
    rewrite Hid. apply autoincrement_fresh. }
  destruct (generate_maintenance_bills_loop today
              (GenerateForm.billing_cycle form) db1 (occupied_houses db1) []
              {| stored := db1; pending := db1 |})
    as (new & Hnew & Hall).
  - now apply NoDup_map_filter.
  - intros x b _ [].
  - cbn. now rewrite app_nil_r.
  - assert (Hocc : In h (occupied_houses db1)).
    { apply occupied_houses_In. split; [|assumption].
      cbn [db1 houses]. apply in_or_app. right. now left. }
    destruct (Forall2_In_l _ _ _ _ Hall Hocc) as (b & Hb & Hbill).
    exists b. rewrite Hnew. split; [apply in_or_app; right; exact Hb|].
    destruct Hbill as (Hh & _ & Hc & _ & _ & _ & _ & _ & _ & Hs & Hprev).
    rewrite Hh, Hid. split; [reflexivity|]. split; [exact Hc|].
    destruct Hprev as [(p & (Hp & Hph & _) & _)|(_ & H0 & Hd & Hb0)].
    + exfalso. destruct (Hhouses p Hp) as (x & Hx & E).
      apply (autoincrement_fresh (map House.id (houses db))).
      rewrite <- Hid, <- Hph, <- E. now apply in_map.
    + now repeat split.
Qed.

Lemma new_house_is_billed_witness :
  exists b,
    In b (bills (snd (generate_bills 100
                        (Sample.generate "2024-02" "maintenance" false 0 0)
                        (snd (add_house Scenario.form_h201 Sample.billed)))))
    /\ Bill.house_id b = 3%Z
    /\ Bill.total_amount_due b = 3000.
Proof.
  destruct (new_house_is_billed 100 Scenario.form_h201
              (Sample.generate "2024-02" "maintenance" false 0 0)
              Sample.billed)
    as (_ & b & Hb & Hid & _ & _ & Hdue & _).
  - cbn. repeat constructor; cbn; intuition lia.
  - intros b [<-|[]]. exists Sample.h101. split; [now left|reflexivity].
  - intros h [<-|[<-|[]]]; discriminate.
  - reflexivity.
  - intros (b & [<-|[]] & E & _). discriminate.
  - exists b. split; [exact Hb|]. split; [exact Hid|exact Hdue].
Defined.

Lemma edit_house_success house_id form db :
  fst (edit_house house_id form db)
  = page_redirect "houses" [("House updated successfully!", "success")] ->
  houses (snd (edit_house house_id form db))
  = map (fun h => if (House.id h =? house_id)%Z then set_house form h else h)
        (houses db)
  /\ bills (snd (edit_house house_id form db)) = bills db.
Proof.
  unfold edit_house, update_house. cbn [get_db_connection pending].
  destruct (find _ (houses db)); [|discriminate].
  destruct (_ && _)%bool; [discriminate|].
  intros _. split; reflexivity.
Qed.

(** X19.  A house whose status has been edited to anything but 'occupied'
    is left out of the next generation run: after a successful
    [edit_house] with such a status, no bill that [generate_bills] adds,
    whatever the form, is for that house. *)
Theorem vacated_house_is_skipped house_id house_form today form db :
  HouseForm.status house_form <> "occupied" ->
  fst (edit_house house_id house_form db)
  = page_redirect "houses" [("House updated successfully!", "success")] ->
  exists new,
    bills (snd (generate_bills today form
                  (snd (edit_house house_id house_form db))))
    = (bills db ++ new)%list
    /\ forall b, In b new -> Bill.house_id b <> house_id.
Proof.
  intros Hst Hok. apply edit_house_success in Hok as [Hh Hb].
  destruct (generate_bills_new_bills today form
              (snd (edit_house house_id house_form db)))
    as (new & Hnew & Hids).
  exists new. rewrite Hnew, Hb. split; [reflexivity|].
  intros b Hin E. destruct Hids as [->|Hids]; [contradiction|].
  apply (in_map Bill.house_id) in Hin. rewrite Hids in Hin.
  apply in_map_iff in Hin as (h & Hid & Hocc).
  apply occupied_houses_In in Hocc as [Hin Hs].
  rewrite Hh in Hin. apply in_map_iff in Hin as (x & Hx & _).
  destruct (Z.eqb_spec (House.id x) house_id) as [Ex|Nx].
  - subst h. cbn in Hs. contradiction.
  - subst h. congruence.
Qed.

Lemma vacated_house_is_skipped_witness :
  exists new,
    bills (snd (generate_bills 100
                  (Sample.generate "2024-02" "maintenance" false 0 0)
                  (snd (edit_house 1 Scenario.form_h201_vacant
                          Sample.billed))))
    = (bills Sample.billed ++ new)%list
    /\ forall b, In b new -> Bill.house_id b <> 1%Z.
Proof.
  apply (vacated_house_is_skipped 1 Scenario.form_h201_vacant 100
           (Sample.generate "2024-02" "maintenance" false 0 0)
           Sample.billed).
  - discriminate.
  - reflexivity.
Defined.

(** X20.  Editing a stored house without changing its number is never
    refused as a duplicate, house numbers being distinct: the handler
    answers with the success redirect, the house's row takes the values of
    the form and keeps its id, and every other house, bill, reading and
    payment is left as it was. *)
Theorem edit_house_keeps_own_number house_id form db h :
  NoDup (map House.house_number (houses db)) ->
  In h (houses db) ->
  House.id h = house_id ->
  HouseForm.house_number form = House.house_number h ->
  edit_house house_id form db
  = (page_redirect "houses" [("House updated successfully!", "success")],
     {| houses := map (fun x => if (House.id x =? house_id)%Z
                                then set_house form x else x)
                      (houses db);
        meter_readings := meter_readings db;
        bills := bills db;
        payments := payments db |}).
Proof.
  intros Hnums Hh Hid Hnum.
  unfold edit_house, update_house. cbn [get_db_connection pending].
  destruct (find _ (houses db)) as [house|] eqn:Hfind.
  - assert (Hother : existsb (fun x => negb (House.id x =? house_id)%Z
                              && String.eqb (House.house_number x)
                                   (HouseForm.house_number form))
                             (houses db) = false).
    { destruct (existsb _ (houses db)) eqn:E; [|reflexivity].
      apply existsb_exists in E as (x & Hx & E).
      apply andb_true_iff in E as [Ex En].
      apply negb_true_iff, Z.eqb_neq in Ex. apply String.eqb_eq in En.
      exfalso. apply Ex. rewrite <- Hid. f_equal.
      apply (NoDup_map_injective House.house_number (houses db));
        try assumption. congruence. }
    rewrite Hother, andb_false_r. reflexivity.
  - exfalso. apply (find_none _ _ Hfind) in Hh.
    apply Z.eqb_neq in Hh. contradiction.
Qed.

Lemma edit_house_keeps_own_number_witness :
  In Sample.h102 (houses Sample.billed)
  /\ fst (edit_house 2
            {| HouseForm.house_number := "H102";
               HouseForm.owner_name := "new owner";
               HouseForm.contact_number := "";
               HouseForm.email := "";
               HouseForm.address := "";
               HouseForm.status := "occupied" |} Sample.billed)
     = page_redirect "houses" [("House updated successfully!", "success")].
Proof.
  assert (H : In Sample.h102 (houses Sample.billed)) by (right; now left).
  split; [exact H|].
  rewrite (edit_house_keeps_own_number 2 _ Sample.billed Sample.h102);
    [reflexivity| |exact H|reflexivity|reflexivity].
  cbn. repeat constructor; cbn; intuition discriminate.
Defined.

(** ** Readings over time *)

(** A reading dated later than all those of its house becomes the latest
    reading of the house. *)
Lemma latest_reading_after_add user form db :
  (forall r, In r (meter_readings db) ->
     MeterReading.house_id r = ReadingForm.house_id form ->
     Date.ltb (MeterReading.reading_date r)
              (ReadingForm.reading_date form) = true) ->
  exists r1,
    meter_readings (snd (add_meter_reading user form db))
    = (meter_readings db ++ [r1])%list
    /\ latest_reading (ReadingForm.house_id form)
         (snd (add_meter_reading user form db)) = Some r1
    /\ MeterReading.house_id r1 = ReadingForm.house_id form
    /\ MeterReading.reading_date r1 = ReadingForm.reading_date form
    /\ MeterReading.current_reading r1 = ReadingForm.current_reading form
    /\ MeterReading.consumption r1
       = Some (ReadingForm.current_reading form
               - latest_value (ReadingForm.house_id form) db).
Proof.
  intros Hlater.
  set (db1 := snd (add_meter_reading user form db)).
  assert (Hdb1 : exists r1,
             meter_readings db1 = (meter_readings db ++ [r1])%list
             /\ MeterReading.house_id r1 = ReadingForm.house_id form
             /\ MeterReading.reading_date r1 = ReadingForm.reading_date form
             /\ MeterReading.current_reading r1
                = ReadingForm.current_reading form
             /\ MeterReading.consumption r1
                = Some (ReadingForm.current_reading form
                        - latest_value (ReadingForm.house_id form) db)).
  { eexists. subst db1. unfold latest_value. cbn. repeat split. }
  destruct Hdb1 as (r1 & Hr1 & Hh1 & Hd1 & Hc1 & Hcons).
  exists r1. repeat split; try assumption.
  pose proof (latest_reading_spec (ReadingForm.house_id form) db1) as H.
  destruct (latest_reading (ReadingForm.house_id form) db1) as [r|].
  - destruct H as (Hin & Hid & Hmax). rewrite Hr1 in Hin.
    apply in_app_or in Hin as [Hin|[<-|[]]]; [|reflexivity].
    exfalso. apply (date_ltb_not_leb (MeterReading.reading_date r)
                                     (MeterReading.reading_date r1)).
    + rewrite Hd1. now apply Hlater.
    + apply Hmax; [|assumption]. rewrite Hr1. apply in_or_app.
      right. now left.
  - exfalso. apply (H r1); [|assumption]. rewrite Hr1.
    apply in_or_app. right. now left.
Qed.

(** X23.  From a reading to the water preview: after a reading dated later,
    in the order of the column, than all those of its house has been added,
    every preview row of that house takes as consumption the new value
    minus the value that was the latest before, and charges 70 times that;
    when the meter went back, the consumption and the water charge of the
    row are negative. *)
Theorem reading_feeds_the_preview user reading today form db
    rows cycle m t ww rc total :
  (forall r, In r (meter_readings db) ->
     MeterReading.house_id r = ReadingForm.house_id reading ->
     Date.ltb (MeterReading.reading_date r)
              (ReadingForm.reading_date reading) = true) ->
  fst (generate_bills today form (snd (add_meter_reading user reading db)))
  = Returned (render_water_bill_preview rows cycle m t ww rc total) ->
  forall i, In i rows ->
    House.id (HouseInfo.house i) = ReadingForm.house_id reading ->
    HouseInfo.consumption i
    == ReadingForm.current_reading reading
       - latest_value (ReadingForm.house_id reading) db
    /\ HouseInfo.water_charge i
       == 70 * (ReadingForm.current_reading reading
                - latest_value (ReadingForm.house_id reading) db)
    /\ (ReadingForm.current_reading reading
        < latest_value (ReadingForm.house_id reading) db ->
        HouseInfo.consumption i < 0 /\ HouseInfo.water_charge i < 0).
Proof.
  intros Hlater Hprev i Hi Hid.
  apply generate_bills_previews in Hprev as [Hprev _].
  apply preview_rows in Hprev as (Hrows & _).
  destruct (Forall2_In_r _ _ _ _ Hrows Hi)
    as (h & _ & Hh & Hc & _ & Hwc & _).
  destruct (latest_reading_after_add user reading db Hlater)
    as (r1 & _ & Hlatest & _ & _ & _ & Hcons).
  assert (E : HouseInfo.consumption i
              == ReadingForm.current_reading reading
                 - latest_value (ReadingForm.house_id reading) db).
  { rewrite Hc. rewrite <- Hh, Hid. unfold latest_consumption.
    rewrite Hlatest, Hcons.
    destruct (Qeq_bool _ 0) eqn:Z0; [|reflexivity].
    apply Qeq_bool_eq in Z0. now symmetry. }
  split; [exact E|]. split.
  - rewrite Hwc, E. ring.
  - intros Hback. split; [lra|]. rewrite Hwc. lra.
Qed.

Lemma reading_feeds_the_preview_witness :
  Forall (fun i => House.id (HouseInfo.house i) = 1%Z ->
                   HouseInfo.water_charge i < 0)
    (match fst (generate_bills 131
                  (Sample.generate "2024-02" "water" true 500 0)
                  (snd (add_meter_reading 1
                          (Sample.reading 1 "2024-02-29" 4)
                          Sample.five_houses))) with
     | Returned (render_water_bill_preview rows _ _ _ _ _ _) => rows
     | _ => []
     end).
Proof.
  apply Forall_forall. intros i Hi Hid.
  refine (proj2 (proj2 (proj2 (reading_feeds_the_preview 1
            (Sample.reading 1 "2024-02-29" 4) 131
            (Sample.generate "2024-02" "water" true 500 0)
            Sample.five_houses _ "2024-02" 0 0 500 0 (-6) _ eq_refl
            i Hi Hid)) _)).
  - intros r [<-|[]] _. reflexivity.
  - reflexivity.
Defined.

(** ** The debug route *)

Lemma add_reading_later user form db :
  (forall r, In r (meter_readings db) ->
     MeterReading.house_id r = ReadingForm.house_id form ->
     Date.ltb (MeterReading.reading_date r)
              (ReadingForm.reading_date form) = true) ->
  exists r1,
    meter_readings (snd (add_meter_reading user form db))
    = (meter_readings db ++ [r1])%list
    /\ readings_newest_first (ReadingForm.house_id form)
         (snd (add_meter_reading user form db))
       = r1 :: readings_newest_first (ReadingForm.house_id form) db
    /\ latest_value (ReadingForm.house_id form)
         (snd (add_meter_reading user form db))
       = ReadingForm.current_reading form
    /\ MeterReading.house_id r1 = ReadingForm.house_id form
    /\ MeterReading.reading_date r1 = ReadingForm.reading_date form
    /\ MeterReading.current_reading r1 = ReadingForm.current_reading form
    /\ MeterReading.consumption r1
       = Some (ReadingForm.current_reading form
               - latest_value (ReadingForm.house_id form) db).
Proof.
  intros Hlater.
  destruct (latest_reading_after_add user form db Hlater)
    as (r1 & Hr1 & Hlatest & Hh1 & Hd1 & Hc1 & Hcons).
  exists r1. split; [exact Hr1|]. split; [|split].
  - unfold readings_newest_first. rewrite Hr1, filter_app. cbn [filter].
    rewrite (proj2 (Z.eqb_eq _ _) Hh1). apply order_by_snoc_first.
    intros a Ha. apply filter_In in Ha as [Ha Hid]. apply Z.eqb_eq in Hid.
    unfold by_date_desc_then_id_desc. rewrite Hd1.
    pose proof (Hlater a Ha Hid) as Hlt. unfold Date.ltb in Hlt.
    rewrite (date_compare_antisym (MeterReading.reading_date a)
               (ReadingForm.reading_date form)).
    destruct (Date.compare (MeterReading.reading_date a)
                           (ReadingForm.reading_date form));
      try discriminate. reflexivity.
  - unfold latest_value. now rewrite Hlatest.
  - now repeat split.
Qed.

Lemma add_meter_readings_dates user forms :
  forall db r,
    In r (meter_readings (add_meter_readings user forms db)) ->
    In r (meter_readings db)
    \/ exists form, In form forms
         /\ MeterReading.reading_date r = ReadingForm.reading_date form.
Proof.
  unfold add_meter_readings.
  induction forms as [|form forms IH]; intros db r Hr; cbn [fold_left] in Hr.
  - now left.
  - apply IH in Hr as [Hr|(g & Hg & E)].
    + cbn [add_meter_reading get_db_connection pending snd close commit
           execute stored insert_meter_reading meter_readings] in Hr.
      apply in_app_or in Hr as [Hr|[<-|[]]]; [now left|].
      right. exists form. split; [now left|reflexivity].
    + right. exists g. split; [now right|assumption].
Qed.

Lemma add_meter_readings_houses user forms :
  forall db, houses (add_meter_readings user forms db) = houses db.
Proof.
  unfold add_meter_readings.
  induction forms as [|form forms IH]; intros db; cbn [fold_left];
    [reflexivity|].
  now rewrite IH.
Qed.

Lemma StronglySorted_app_inv {A : Type} (R : A -> A -> Prop) l l' :
  StronglySorted R (l ++ l') ->
  StronglySorted R l'
  /\ forall x y, In x l -> In y l' -> R x y.
Proof.
  induction l as [|a l IH]; cbn [app]; intros H.
  - split; [assumption|]. intros x y [].
  - apply StronglySorted_inv in H as [Hs Ha].
    destruct (IH Hs) as [Hl' Hall]. split; [assumption|].
    intros x y [<-|Hx] Hy.
    + rewrite Forall_forall in Ha. apply Ha, in_or_app. now right.
    + now apply Hall.
Qed.

(** X24.  The debug route against the stored values: for an occupied house
    that had no reading and then got at least two, entered in strictly
    increasing date order (that of the column), the entry of
    [debug_all_consumptions] shows the last reading's value, and the
    consumption it recomputes from the two newest readings is the last
    value minus the one before, which is also the consumption stored with
    the last reading (shown as null when it is zero). *)
Theorem debug_consumption_agrees user house older before_last last_form db :
  In house (houses db) ->
  House.status house = "occupied" ->
  no_reading_of (House.id house) db ->
  in_date_order (House.id house) (older ++ [before_last; last_form]) ->
  let db' :=
    add_meter_readings user (older ++ [before_last; last_form]) db in
  let entry := debug_consumption db' house in
  In entry (debug_all_consumptions db')
  /\ DebugEntry.latest_reading entry = ReadingForm.current_reading last_form
  /\ DebugEntry.calculated_consumption entry
     = ReadingForm.current_reading last_form
       - ReadingForm.current_reading before_last
  /\ DebugEntry.stored_consumption entry
     = consumption_or_None
         (Some (ReadingForm.current_reading last_form
                - ReadingForm.current_reading before_last)).
Proof.
  intros Hin Hocc Hnone [Hhouse Hsorted] db' entry.
  apply Forall_app in Hhouse as [_ Hhouse].
  apply Forall_cons_iff in Hhouse as [Hh1 Hhouse].
  apply Forall_cons_iff in Hhouse as [Hh2 _].
  apply StronglySorted_app_inv in Hsorted as [Hlast Holder].
  apply StronglySorted_inv in Hlast as [_ Hlast].
  apply Forall_cons_iff in Hlast as [H12 _].
  set (db0 := add_meter_readings user older db).
  assert (Hdb' : db' = snd (add_meter_reading user last_form
                              (snd (add_meter_reading user before_last
                                      db0)))).
  { subst db' db0. unfold add_meter_readings.
    now rewrite fold_left_app. }
  assert (Hlater1 : forall r, In r (meter_readings db0) ->
            MeterReading.house_id r = ReadingForm.house_id before_last ->
            Date.ltb (MeterReading.reading_date r)
                     (ReadingForm.reading_date before_last) = true).
  { intros r Hr Hid.
    apply add_meter_readings_dates in Hr as [Hr|(g & Hg & E)].
    - exfalso. apply (Hnone r Hr). congruence.
    - rewrite E. apply Holder; [assumption|now left]. }
  destruct (add_reading_later user before_last db0 Hlater1)
    as (r1 & Hr1 & Hnew1 & Hv1 & Hid1 & Hd1 & Hc1 & _).
  set (db1 := snd (add_meter_reading user before_last db0)) in *.
  assert (Hlater2 : forall r, In r (meter_readings db1) ->
            MeterReading.house_id r = ReadingForm.house_id last_form ->
            Date.ltb (MeterReading.reading_date r)
                     (ReadingForm.reading_date last_form) = true).
  { intros r Hr Hid. rewrite Hr1 in Hr.
    apply in_app_or in Hr as [Hr|[<-|[]]].
    - apply (date_ltb_trans _ (ReadingForm.reading_date before_last));
        [|exact H12].
      apply Hlater1; [assumption|congruence].
    - now rewrite Hd1. }
  destruct (add_reading_later user last_form db1 Hlater2)
    as (r2 & _ & Hnew2 & _ & _ & _ & Hc2 & Hcons2).
  rewrite <- Hdb' in Hnew2.
  rewrite Hh2, <- Hh1 in Hcons2. rewrite Hv1 in Hcons2.
  rewrite Hh2 in Hnew2. rewrite <- Hh1 in Hnew2 at 2. rewrite Hnew1 in Hnew2.
  split.
  - unfold debug_all_consumptions. apply in_map.
    apply (Permutation_in _ (Permutation_sym (order_by_Permutation _ _))).
    apply occupied_houses_In. split; [|assumption].
    subst db'. now rewrite add_meter_readings_houses.
  - subst entry. unfold debug_consumption. rewrite Hnew2.
    unfold limit_offset.
    change (Z.to_nat 3) with 3%nat. change (Z.to_nat 0) with 0%nat.
    cbn [skipn firstn DebugEntry.latest_reading
         DebugEntry.calculated_consumption DebugEntry.stored_consumption].
    rewrite Hc2, Hc1, Hcons2. repeat split.
Qed.

Lemma debug_consumption_agrees_witness :
  DebugEntry.calculated_consumption
    (debug_consumption
       (add_meter_readings 1
          ([Sample.reading 2 "2024-01-31" 100]
           ++ [Sample.reading 2 "2024-02-29" 112;
               Sample.reading 2 "2024-03-31" 130])
          Sample.five_houses)
       (Sample.house 2 "H102" "occupied"))
  = 130 - 112.
Proof.
  refine (proj1 (proj2 (proj2 (debug_consumption_agrees 1
            (Sample.house 2 "H102" "occupied")
            [Sample.reading 2 "2024-01-31" 100]
            (Sample.reading 2 "2024-02-29" 112)
            (Sample.reading 2 "2024-03-31" 130)
            Sample.five_houses _ eq_refl _ _)))).
  - right. now left.
  - intros r [<-|[]]. discriminate.
  - split; repeat constructor.
Defined.

(** A first reading is where the two differ: the stored consumption is the
    whole value, the recomputed one is 0. *)
Example debug_consumption_of_a_first_reading :
  let entry :=
    debug_consumption
      (snd (add_meter_reading 1 (Sample.reading 2 "2024-01-31" 100)
              Sample.five_houses))
      (Sample.house 2 "H102" "occupied") in
  DebugEntry.stored_consumption entry = Some 100
  /\ DebugEntry.calculated_consumption entry = 0.
Proof. split; reflexivity. Qed.
